(** * The reconnecting WebSocket client

    A shallow embedding of [App/modules/lib/client/websocketClient.js]
    (class [WebSocketClient] and the singleton accessor
    [getWebSocketClient]) and of the part of the browser it talks to:
    sockets with their [readyState], timers, the console and the listener
    callbacks.  The client is single threaded and event driven, so a run is
    a sequence of actions: calls of the public methods and events delivered
    by the host (open, close, error, message, timer).

    Layout: JavaScript values and [JSON.stringify]; the state and the
    monad of the methods; the methods, in the order of the source; the
    actions and runs; then the theorems. *)

From Stdlib Require Import ZArith Lia Ascii String DecimalString.
From stdpp Require Import base strings list gmap.

Open Scope string_scope.
Open Scope list_scope.
Set Warnings "-register-all".

(** ** JavaScript values *)

(** The values that travel through the client: configuration, messages,
    event payloads, errors.  A number is given by the decimal JavaScript
    prints for it, [units * 10^-places]: 28.5 is [VNum 285 1], 5000 is
    [VNum 5000 0].  Every JavaScript number has such a decimal, of at most
    17 significant digits; a decimal that no JavaScript number prints as
    (such as 2^53 + 1) stands for no value of the program. *)
Inductive value : Type :=
| VUndefined
| VNull
| VBool (b : bool)
| VNum (units : Z) (places : nat)
| VStr (s : string)
| VArr (items : list value)
| VObj (fields : list (string * value)).

Definition VInt (n : Z) : value := VNum n 0.

(** [ToBoolean]: what [if (v)], [v || w] and [v ? a : b] test. *)
Definition truthy (v : value) : bool :=
  match v with
  | VUndefined | VNull => false
  | VBool b => b
  | VNum u _ => negb (u =? 0)%Z
  | VStr s => negb (String.eqb s "")
  | VArr _ | VObj _ => true
  end.

(** [a || b] *)
Definition js_or (a b : value) : value := if truthy a then a else b.

(** Own property of an object literal; the first binding of a key counts. *)
Fixpoint assoc (k : string) (fs : list (string * value)) : value :=
  match fs with
  | [] => VUndefined
  | (k', v) :: fs' => if String.eqb k k' then v else assoc k fs'
  end.

(** The errors the host raises. *)
Definition TypeError : value := VObj [("name", VStr "TypeError")].
Definition SyntaxError : value := VObj [("name", VStr "SyntaxError")].
Definition InvalidStateError : value := VObj [("name", VStr "InvalidStateError")].

(** ** JSON.stringify *)

Definition dquote : string := String "034"%char "".

(** [dq] writes an expected JSON text with apostrophes for the double
    quotes: [dq "{'a':1}"] is the text [{"a":1}] with real double quotes. *)
Fixpoint dq (s : string) : string :=
  match s with
  | EmptyString => EmptyString
  | String c s' => String (if Ascii.eqb c "'" then "034"%char else c) (dq s')
  end.

Definition hex_digit (n : N) : string :=
  match n with
  | 0%N => "0" | 1%N => "1" | 2%N => "2" | 3%N => "3" | 4%N => "4"
  | 5%N => "5" | 6%N => "6" | 7%N => "7" | 8%N => "8" | 9%N => "9"
  | 10%N => "a" | 11%N => "b" | 12%N => "c" | 13%N => "d" | 14%N => "e"
  | _ => "f"
  end.

(** One character of a quoted JSON string. *)
Definition escape_char (c : ascii) : string :=
  let n := N_of_ascii c in
  if (n =? 34)%N then "\" +:+ dquote
  else if (n =? 92)%N then "\\"
  else if (n =? 8)%N then "\b"
  else if (n =? 9)%N then "\t"
  else if (n =? 10)%N then "\n"
  else if (n =? 12)%N then "\f"
  else if (n =? 13)%N then "\r"
  else if (n <? 32)%N then "\u00" +:+ hex_digit (n / 16) +:+ hex_digit (n mod 16)
  else String c "".

Fixpoint escape (s : string) : string :=
  match s with
  | EmptyString => EmptyString
  | String c s' => escape_char c +:+ escape s'
  end.

Definition quote (s : string) : string := dquote +:+ escape s +:+ dquote.

Fixpoint zeros (n : nat) : string :=
  match n with O => "" | S n' => "0" +:+ zeros n' end.

Definition Z_text (n : Z) : string := NilZero.string_of_int (Z.to_int n).

Fixpoint strip_trailing_zeros (s : string) : string :=
  match s with
  | EmptyString => EmptyString
  | String c s' =>
      match strip_trailing_zeros s' with
      | EmptyString => if Ascii.eqb c "0" then EmptyString else String c EmptyString
      | r => String c r
      end
  end.

(** [Number::toString]: with [s] the digits without trailing zeros, [k]
    their number and [n] the place of the decimal point, the number
    [0.s * 10^n] is printed in plain notation when [0 < n <= 21] or
    [-6 < n <= 0] and with an exponent otherwise ([1e+21], [1e-7]). *)
Definition number_text (units : Z) (places : nat) : string :=
  if (units =? 0)%Z then "0" else
  let all := Z_text (Z.abs units) in
  let s := strip_trailing_zeros all in
  let k := Z.of_nat (String.length s) in
  let n := (Z.of_nat (String.length all) - Z.of_nat places)%Z in
  (if (units <? 0)%Z then "-" else "") +:+
  (if (k <=? n)%Z && (n <=? 21)%Z then s +:+ zeros (Z.to_nat (n - k))
   else if (0 <? n)%Z && (n <=? 21)%Z then
     substring 0 (Z.to_nat n) s +:+ "." +:+ substring (Z.to_nat n) (Z.to_nat (k - n)) s
   else if (-6 <? n)%Z && (n <=? 0)%Z then "0." +:+ zeros (Z.to_nat (- n)) +:+ s
   else
     let e := (n - 1)%Z in
     let exponent := "e" +:+ (if (e <? 0)%Z then "-" else "+") +:+ Z_text (Z.abs e) in
     match s with
     | String c EmptyString => String c "" +:+ exponent
     | String c rest => String c "" +:+ "." +:+ rest +:+ exponent
     | EmptyString => exponent
     end).

Fixpoint join (sep : string) (l : list string) : string :=
  match l with
  | [] => ""
  | [x] => x
  | x :: l' => x +:+ sep +:+ join sep l'
  end.

(** [JSON.stringify(v)]; [None] is the result [undefined].  An undefined
    array element prints as [null], an undefined property is left out. *)
Fixpoint JSON_stringify (v : value) : option string :=
  match v with
  | VUndefined => None
  | VNull => Some "null"
  | VBool b => Some (if b then "true" else "false")
  | VNum u p => Some (number_text u p)
  | VStr s => Some (quote s)
  | VArr items =>
      Some ("[" +:+ join "," (map (fun x => default "null" (JSON_stringify x)) items) +:+ "]")
  | VObj fields =>
      Some ("{" +:+ join ","
        ((fix members (fs : list (string * value)) : list string :=
            match fs with
            | [] => []
            | (k, x) :: fs' =>
                match JSON_stringify x with
                | Some t => (quote k +:+ ":" +:+ t) :: members fs'
                | None => members fs'
                end
            end) fields) +:+ "}")
  end.

(** The text that reaches [ws.send] or the queue: a string argument that
    is [undefined] is converted to the text [undefined]. *)
Definition frame_of (message : value) : string :=
  default "undefined" (JSON_stringify message).

(** ** The host and the state *)

(** [WebSocket.readyState] *)
Inductive readyState : Type := CONNECTING | OPEN | CLOSING | CLOSED.

Global Instance readyState_eq_dec : EqDecision readyState.
Proof. solve_decision. Defined.

(** A listener is known by its identity: [Set.add] and [Set.delete]
    compare function objects. *)
Definition callback : Type := nat.

(** The two closures the client hands to the host's timers: the one of
    [_scheduleReconnect] (line 252) and the one of [_startHeartbeat]
    (line 263). *)
Inductive timer_fn : Type := ReconnectFn | HeartbeatFn.

(** What the client does to its surroundings, in the order it happens. *)
Inductive effect : Type :=
| WsNew (s : nat) (url : string)
| WsSend (s : nat) (frame : string)
| WsClose (s : nat) (code : Z) (reason : string)
| SetTimeout (h : nat) (delay : Z)
| ClearTimeout (h : nat)
| SetInterval (h : nat) (delay : Z)
| ClearInterval (h : nat)
| ConsoleLog (args : list value)
| Called (cb : callback) (data : value)
| Uncaught (e : value).

(** What the client cannot decide itself: whether [new WebSocket(url)]
    throws, what [JSON.parse] makes of a text ([None]: it throws a
    [SyntaxError]), whether a listener throws on a payload, and the two
    environment variables the constructor reads.  Listeners are the hooks'
    state setters: they do not call back into the client. *)
Class Host : Type := {
  WebSocket_accepts : string -> bool;
  JSON_parse : string -> option value;
  listener_throws : callback -> value -> option value;
  REACT_APP_WS_URL : value;
  WEBSOCKET_PORT : value
}.

(** [this.config] *)
Record Config : Type := {
  url : string;
  reconnectDelay : Z;
  maxReconnectAttempts : Z;
  heartbeatInterval : Z;
  debug : bool
}.

(** The fields of the client (lines 10 to 26) and, below them, the host's
    side: the sockets created so far with their [readyState] (a socket is
    known by its index), the timers handed out so far ([None] once cleared
    or expired) and the effects so far, oldest first. *)
Record state : Type := {
  config : Config;
  ws : option nat;
  connected : bool;
  reconnectAttempts : Z;
  reconnectTimer : option nat;
  heartbeatTimer : option nat;
  subscriptions : gmap string (list callback);
  eventListeners : gmap string (list callback);
  messageQueue : list string;
  sockets : list readyState;
  timers : list (option timer_fn);
  trace : list effect
}.

Definition set_ws (v : option nat) (st : state) : state :=
  {| config := config st; ws := v; connected := connected st;
     reconnectAttempts := reconnectAttempts st; reconnectTimer := reconnectTimer st;
     heartbeatTimer := heartbeatTimer st; subscriptions := subscriptions st;
     eventListeners := eventListeners st; messageQueue := messageQueue st;
     sockets := sockets st; timers := timers st; trace := trace st |}.

Definition set_connected (v : bool) (st : state) : state :=
  {| config := config st; ws := ws st; connected := v;
     reconnectAttempts := reconnectAttempts st; reconnectTimer := reconnectTimer st;
     heartbeatTimer := heartbeatTimer st; subscriptions := subscriptions st;
     eventListeners := eventListeners st; messageQueue := messageQueue st;
     sockets := sockets st; timers := timers st; trace := trace st |}.

Definition set_reconnectAttempts (v : Z) (st : state) : state :=
  {| config := config st; ws := ws st; connected := connected st;
     reconnectAttempts := v; reconnectTimer := reconnectTimer st;
     heartbeatTimer := heartbeatTimer st; subscriptions := subscriptions st;
     eventListeners := eventListeners st; messageQueue := messageQueue st;
     sockets := sockets st; timers := timers st; trace := trace st |}.

Definition set_reconnectTimer (v : option nat) (st : state) : state :=
  {| config := config st; ws := ws st; connected := connected st;
     reconnectAttempts := reconnectAttempts st; reconnectTimer := v;
     heartbeatTimer := heartbeatTimer st; subscriptions := subscriptions st;
     eventListeners := eventListeners st; messageQueue := messageQueue st;
     sockets := sockets st; timers := timers st; trace := trace st |}.

Definition set_heartbeatTimer (v : option nat) (st : state) : state :=
  {| config := config st; ws := ws st; connected := connected st;
     reconnectAttempts := reconnectAttempts st; reconnectTimer := reconnectTimer st;
     heartbeatTimer := v; subscriptions := subscriptions st;
     eventListeners := eventListeners st; messageQueue := messageQueue st;
     sockets := sockets st; timers := timers st; trace := trace st |}.

Definition set_subscriptions (v : gmap string (list callback)) (st : state) : state :=
  {| config := config st; ws := ws st; connected := connected st;
     reconnectAttempts := reconnectAttempts st; reconnectTimer := reconnectTimer st;
     heartbeatTimer := heartbeatTimer st; subscriptions := v;
     eventListeners := eventListeners st; messageQueue := messageQueue st;
     sockets := sockets st; timers := timers st; trace := trace st |}.

Definition set_eventListeners (v : gmap string (list callback)) (st : state) : state :=
  {| config := config st; ws := ws st; connected := connected st;
     reconnectAttempts := reconnectAttempts st; reconnectTimer := reconnectTimer st;
     heartbeatTimer := heartbeatTimer st; subscriptions := subscriptions st;
     eventListeners := v; messageQueue := messageQueue st;
     sockets := sockets st; timers := timers st; trace := trace st |}.

Definition set_messageQueue (v : list string) (st : state) : state :=
  {| config := config st; ws := ws st; connected := connected st;
     reconnectAttempts := reconnectAttempts st; reconnectTimer := reconnectTimer st;
     heartbeatTimer := heartbeatTimer st; subscriptions := subscriptions st;
     eventListeners := eventListeners st; messageQueue := v;
     sockets := sockets st; timers := timers st; trace := trace st |}.

Definition set_sockets (v : list readyState) (st : state) : state :=
  {| config := config st; ws := ws st; connected := connected st;
     reconnectAttempts := reconnectAttempts st; reconnectTimer := reconnectTimer st;
     heartbeatTimer := heartbeatTimer st; subscriptions := subscriptions st;
     eventListeners := eventListeners st; messageQueue := messageQueue st;
     sockets := v; timers := timers st; trace := trace st |}.

Definition set_timers (v : list (option timer_fn)) (st : state) : state :=
  {| config := config st; ws := ws st; connected := connected st;
     reconnectAttempts := reconnectAttempts st; reconnectTimer := reconnectTimer st;
     heartbeatTimer := heartbeatTimer st; subscriptions := subscriptions st;
     eventListeners := eventListeners st; messageQueue := messageQueue st;
     sockets := sockets st; timers := v; trace := trace st |}.

Definition log_effect (e : effect) (st : state) : state :=
  {| config := config st; ws := ws st; connected := connected st;
     reconnectAttempts := reconnectAttempts st; reconnectTimer := reconnectTimer st;
     heartbeatTimer := heartbeatTimer st; subscriptions := subscriptions st;
     eventListeners := eventListeners st; messageQueue := messageQueue st;
     sockets := sockets st; timers := timers st; trace := trace st ++ [e] |}.

(** ** The monad of the methods: state and exceptions *)

Inductive outcome (A : Type) : Type :=
| Normal (a : A)
| Thrown (e : value).
Arguments Normal {A} a.
Arguments Thrown {A} e.

Definition M (A : Type) : Type := state -> outcome A * state.

Definition ret {A} (a : A) : M A := fun st => (Normal a, st).

Definition bind {A B} (m : M A) (f : A -> M B) : M B :=
  fun st =>
    match m st with
    | (Normal a, st') => f a st'
    | (Thrown e, st') => (Thrown e, st')
    end.

Definition throw {A} (e : value) : M A := fun st => (Thrown e, st).

(** [try { m } catch (error) { handler error }] *)
Definition try_catch {A} (m : M A) (handler : value -> M A) : M A :=
  fun st =>
    match m st with
    | (Normal a, st') => (Normal a, st')
    | (Thrown e, st') => handler e st'
    end.

Definition gets {A} (f : state -> A) : M A := fun st => (Normal (f st), st).
Definition modify (f : state -> state) : M unit := fun st => (Normal tt, f st).
Definition perform (e : effect) : M unit := modify (log_effect e).

Declare Scope js_scope.
Delimit Scope js_scope with js.
Notation "'let!' x ':=' m 'in' k" := (bind m (fun x => k))
  (at level 10, x name, m at level 100, k at level 200, only parsing) : js_scope.
Notation "m ;;; k" := (bind m (fun _ => k))
  (at level 100, k at level 200, only parsing, right associativity) : js_scope.
Open Scope js_scope.

Definition when (b : bool) (m : M unit) : M unit := if b then m else ret tt.

(** [l.forEach(f)] *)
Fixpoint forEach {A} (l : list A) (f : A -> M unit) : M unit :=
  match l with
  | [] => ret tt
  | x :: l' => f x ;;; forEach l' f
  end.

(** ** The host's operations *)

Definition readyState_of (s : nat) (st : state) : readyState :=
  default CLOSED (sockets st !! s).

(** [new WebSocket(url)]: a new socket in state [CONNECTING], or a
    [SyntaxError] for an address the host refuses. *)
Definition new_WebSocket `{Host} (u : string) : M nat :=
  fun st =>
    if WebSocket_accepts u then
      let s := length (sockets st) in
      (Normal s, log_effect (WsNew s u) (set_sockets (sockets st ++ [CONNECTING]) st))
    else (Thrown SyntaxError, st).

(** [socket.send(frame)]: throws while [CONNECTING], writes the frame
    when [OPEN], drops it silently afterwards. *)
Definition ws_send (s : nat) (frame : string) : M unit :=
  fun st =>
    match readyState_of s st with
    | CONNECTING => (Thrown InvalidStateError, st)
    | OPEN => (Normal tt, log_effect (WsSend s frame) st)
    | CLOSING | CLOSED => (Normal tt, st)
    end.

(** [socket.close(code, reason)]: a socket that is connecting or open
    starts closing; its close event comes later. *)
Definition ws_close (s : nat) (code : Z) (reason : string) : M unit :=
  perform (WsClose s code reason) ;;;
  modify (fun st =>
    match readyState_of s st with
    | CONNECTING | OPEN => set_sockets (<[s:=CLOSING]> (sockets st)) st
    | CLOSING | CLOSED => st
    end).

(** [setTimeout] and [setInterval] hand out a fresh handle; handles are
    never 0 in a browser, so a handle is always truthy. *)
Definition new_timer (fn : timer_fn) : M nat :=
  fun st => (Normal (length (timers st)), set_timers (timers st ++ [Some fn]) st).

Definition setTimeout (fn : timer_fn) (delay : Z) : M nat :=
  let! h := new_timer fn in perform (SetTimeout h delay) ;;; ret h.

Definition setInterval (fn : timer_fn) (delay : Z) : M nat :=
  let! h := new_timer fn in perform (SetInterval h delay) ;;; ret h.

Definition clearTimeout (h : nat) : M unit :=
  perform (ClearTimeout h) ;;; modify (fun st => set_timers (<[h:=None]> (timers st)) st).

Definition clearInterval (h : nat) : M unit :=
  perform (ClearInterval h) ;;; modify (fun st => set_timers (<[h:=None]> (timers st)) st).

(** [callback(data)] *)
Definition call `{Host} (cb : callback) (data : value) : M unit :=
  perform (Called cb data) ;;;
  match listener_throws cb data with
  | Some e => throw e
  | None => ret tt
  end.

(** [v.k] for the keys [type] and [data], which no prototype defines. *)
Definition prop (v : value) (k : string) : M value :=
  match v with
  | VUndefined | VNull => throw TypeError
  | VObj fs => ret (assoc k fs)
  | _ => ret VUndefined
  end.

(** ** The constructor (lines 9 to 27) *)

(** The [config] object passed by the caller: [None] is a key that is
    not there. *)
Record options : Type := {
  opt_url : option string;
  opt_reconnectDelay : option Z;
  opt_maxReconnectAttempts : option Z;
  opt_heartbeatInterval : option Z;
  opt_debug : option bool
}.

Definition no_options : options :=
  {| opt_url := None; opt_reconnectDelay := None; opt_maxReconnectAttempts := None;
     opt_heartbeatInterval := None; opt_debug := None |}.

(** The argument of [new WebSocketClient(...)]: left out, [null], or an
    object. *)
Inductive ctor_arg : Type := NoArg | NullArg | ConfigArg (c : options).

Definition or_string (a : option string) (b : string) : string :=
  match a with
  | Some s => if String.eqb s "" then b else s
  | None => b
  end.

Definition or_Z (a : option Z) (b : Z) : Z :=
  match a with
  | Some n => if (n =? 0)%Z then b else n
  | None => b
  end.

Definition or_bool (a : option bool) (b : bool) : bool :=
  match a with
  | Some true => true
  | _ => b
  end.

(** [{ key: d, ...config }]: the key of [config], when there, replaces [d]. *)
Definition spread {A} (o : option A) (d : A) : A := default d o.

Definition env_string (v : value) : option string :=
  match v with VStr s => Some s | _ => None end.

Definition resolve_config `{Host} (c : options) : Config :=
  {| url := spread (opt_url c)
              (or_string (opt_url c)
                 (or_string (env_string REACT_APP_WS_URL)
                    ("ws://localhost:" +:+ or_string (env_string WEBSOCKET_PORT) "8080")));
     reconnectDelay := spread (opt_reconnectDelay c) (or_Z (opt_reconnectDelay c) 5000);
     maxReconnectAttempts :=
       spread (opt_maxReconnectAttempts c) (or_Z (opt_maxReconnectAttempts c) 5);
     heartbeatInterval := spread (opt_heartbeatInterval c) (or_Z (opt_heartbeatInterval c) 30000);
     debug := spread (opt_debug c) (or_bool (opt_debug c) false) |}.

(** The client right after construction, in a host that has created no
    socket and no timer yet. *)
Definition fresh (cfg : Config) : state :=
  {| config := cfg; ws := None; connected := false; reconnectAttempts := 0;
     reconnectTimer := None; heartbeatTimer := None; subscriptions := ∅;
     eventListeners := ∅; messageQueue := []; sockets := []; timers := [];
     trace := [] |}.

(** [new WebSocketClient(config)]: the default [{}] stands in for a
    missing argument only, so [null] fails at [config.url]. *)
Definition WebSocketClient_new `{Host} (arg : ctor_arg) : outcome state :=
  match arg with
  | NoArg => Normal (fresh (resolve_config no_options))
  | NullArg => Thrown TypeError
  | ConfigArg c => Normal (fresh (resolve_config c))
  end.

(** ** The methods *)

Section Methods.
Context `{Host}.

(** [_log(...args)], lines 282 to 286 *)
Definition _log (args : list value) : M unit :=
  let! dbg := gets (fun st => debug (config st)) in
  when dbg (perform (ConsoleLog (VStr "[WebSocketClient]" :: args))).

(** The listeners of [event]: [has(event)] then [get(event)].  The keys
    of [eventListeners] are strings and a [Map] does not coerce, so
    another kind of value finds nothing. *)
Definition listeners (event : value) (ls : gmap string (list callback)) : list callback :=
  match event with
  | VStr name => default [] (ls !! name)
  | _ => []
  end.

(** The default of a parameter declared [data = null]. *)
Definition or_null (data : value) : value :=
  match data with VUndefined => VNull | _ => data end.

(** [_emit(event, data = null)], lines 270 to 280 *)
Definition _emit (event : value) (data : value) : M unit :=
  let data := or_null data in
  let! l := gets (fun st => listeners event (eventListeners st)) in
  forEach l (fun callback =>
    try_catch (call callback data)
      (fun error => _log [VStr "Error in event listener:"; error])).

(** [_scheduleReconnect()], lines 238 to 256 *)
Definition _scheduleReconnect : M unit :=
  let! t := gets reconnectTimer in
  match t with Some _ => ret tt | None =>
  let! a := gets reconnectAttempts in
  let! max := gets (fun st => maxReconnectAttempts (config st)) in
  if (a >=? max)%Z then
    _log [VStr "Max reconnection attempts reached"] ;;;
    _emit (VStr "reconnect_failed") VUndefined
  else
    modify (set_reconnectAttempts (a + 1)) ;;;
    let! delay := gets (fun st => reconnectDelay (config st)) in
    let! a := gets reconnectAttempts in
    _log [VStr ("Reconnecting in " +:+ number_text delay 0 +:+ "ms (attempt "
                  +:+ number_text a 0 +:+ "/" +:+ number_text max 0 +:+ ")...")] ;;;
    _emit (VStr "reconnecting") (VObj [("attempt", VInt a); ("delay", VInt delay)]) ;;;
    let! h := setTimeout ReconnectFn delay in
    modify (set_reconnectTimer (Some h))
  end.

(** [connect()], lines 32 to 52 *)
Definition connect : M unit :=
  let! w := gets ws in
  let! busy := gets (fun st =>
    match w with
    | Some s => bool_decide (readyState_of s st = CONNECTING)
                || bool_decide (readyState_of s st = OPEN)
    | None => false
    end) in
  if busy then _log [VStr "Already connected or connecting"] else
  try_catch
    (let! u := gets (fun st => url (config st)) in
     _log [VStr "Connecting to WebSocket server:"; VStr u] ;;;
     let! s := new_WebSocket u in
     modify (set_ws (Some s)))
    (fun error =>
       _log [VStr "Connection error:"; error] ;;;
       _emit (VStr "error") error ;;;
       _scheduleReconnect).

(** [disconnect()], lines 57 to 78 *)
Definition disconnect : M unit :=
  _log [VStr "Disconnecting..."] ;;;
  let! max := gets (fun st => maxReconnectAttempts (config st)) in
  modify (set_reconnectAttempts max) ;;;
  let! t := gets reconnectTimer in
  match t with
  | Some h => clearTimeout h ;;; modify (set_reconnectTimer None)
  | None => ret tt
  end ;;;
  let! hb := gets heartbeatTimer in
  match hb with
  | Some h => clearInterval h ;;; modify (set_heartbeatTimer None)
  | None => ret tt
  end ;;;
  let! w := gets ws in
  match w with
  | Some s => ws_close s 1000 "Client disconnect" ;;; modify (set_ws None)
  | None => ret tt
  end ;;;
  modify (set_connected false) ;;;
  _emit (VStr "disconnected") VUndefined.

(** [this.ws && this.ws.readyState === WebSocket.OPEN], the test of
    lines 229 and 264 *)
Definition ws_is_open (st : state) : bool :=
  match ws st with
  | Some s => bool_decide (readyState_of s st = OPEN)
  | None => false
  end.

(** [this.ws.send(message)]; it is a [TypeError] when [this.ws] is [null] *)
Definition this_ws_send (message : string) : M unit :=
  let! w := gets ws in
  match w with
  | Some s => ws_send s message
  | None => throw TypeError
  end.

(** [_send(message)], lines 226 to 236 *)
Definition _send (message : value) : M unit :=
  let jsonMessage := frame_of message in
  let! is_open := gets ws_is_open in
  if is_open then this_ws_send jsonMessage
  else
    modify (fun st => set_messageQueue (messageQueue st ++ [jsonMessage]) st) ;;;
    _log [VStr "Message queued (not connected)"].

Definition filter_value (filter : option string) : value :=
  match filter with Some f => VStr f | None => VNull end.

(** [subscribe(topic, filter = null, interval = 30000)], lines 86 to 96 *)
Definition subscribe (topic : string) (filter : option string) (interval : option Z) : M unit :=
  let interval := default 30000%Z interval in
  let message := VObj [("type", VStr "subscribe"); ("topic", VStr topic);
                       ("filter", filter_value filter); ("interval", VInt interval)] in
  _send message ;;;
  _log [VStr "Subscribed to:"; VStr topic;
        VStr (match filter with
              | Some f => if String.eqb f "" then "" else "(filter: " +:+ f +:+ ")"
              | None => ""
              end)].

(** [unsubscribe(topic, filter = null)], lines 101 to 110 *)
Definition unsubscribe (topic : string) (filter : option string) : M unit :=
  let message := VObj [("type", VStr "unsubscribe"); ("topic", VStr topic);
                       ("filter", filter_value filter)] in
  _send message ;;;
  _log [VStr "Unsubscribed from:"; VStr topic].

(** [Set.add] keeps the first insertion. *)
Definition set_add (cb : callback) (l : list callback) : list callback :=
  if bool_decide (cb ∈ l) then l else l ++ [cb].

Definition set_delete (cb : callback) (l : list callback) : list callback :=
  filter (fun x => x ≠ cb) l.

(** [on(event, callback)], lines 117 to 123 *)
Definition on (event : string) (cb : callback) : M unit :=
  modify (fun st =>
    match eventListeners st !! event with
    | None => set_eventListeners (<[event:=[]]> (eventListeners st)) st
    | Some _ => st
    end) ;;;
  modify (fun st =>
    set_eventListeners (alter (set_add cb) event (eventListeners st)) st) ;;;
  _log [VStr "Registered listener for:"; VStr event].

(** [off(event, callback)], lines 128 to 135 *)
Definition off (event : string) (cb : callback) : M unit :=
  modify (fun st =>
    match eventListeners st !! event with
    | Some _ =>
        let st := set_eventListeners (alter (set_delete cb) event (eventListeners st)) st in
        match eventListeners st !! event with
        | Some [] => set_eventListeners (delete event (eventListeners st)) st
        | _ => st
        end
    | None => st
    end).

(** [send(data)], lines 140 to 146 *)
Definition send (data : value) : M unit :=
  _send (VObj [("type", VStr "data"); ("data", data)]).



(** [_startHeartbeat()], lines 258 to 268 *)
Definition _startHeartbeat : M unit :=
  let! hb := gets heartbeatTimer in
  match hb with
  | Some h => clearInterval h
  | None => ret tt
  end ;;;
  let! interval := gets (fun st => heartbeatInterval (config st)) in
  let! h := setInterval HeartbeatFn interval in
  modify (set_heartbeatTimer (Some h)).

(** The loop of lines 174 to 177, unrolled over the queue it finds:
    nothing it calls adds to the queue. *)
Fixpoint drain (queue : list string) : M unit :=
  match queue with
  | [] => ret tt
  | message :: rest =>
      modify (set_messageQueue rest) ;;;
      this_ws_send message ;;;
      drain rest
  end.

(** [_handleOpen()], lines 168 to 183 *)
Definition _handleOpen : M unit :=
  _log [VStr "Connected to WebSocket server"] ;;;
  modify (set_connected true) ;;;
  modify (set_reconnectAttempts 0) ;;;
  let! q := gets messageQueue in
  drain q ;;;
  _startHeartbeat ;;;
  _emit (VStr "connected") VUndefined.

(** [_handleClose(event)], lines 185 to 201 *)
Definition _handleClose (code : Z) (reason : string) : M unit :=
  _log [VStr "WebSocket closed:"; VInt code; VStr reason] ;;;
  modify (set_connected false) ;;;
  modify (set_ws None) ;;;
  let! hb := gets heartbeatTimer in
  match hb with
  | Some h => clearInterval h ;;; modify (set_heartbeatTimer None)
  | None => ret tt
  end ;;;
  _emit (VStr "disconnected") (VObj [("code", VInt code); ("reason", VStr reason)]) ;;;
  let! a := gets reconnectAttempts in
  let! max := gets (fun st => maxReconnectAttempts (config st)) in
  when (negb (code =? 1000)%Z && (a <? max)%Z) _scheduleReconnect.

(** [_handleError(error)], lines 203 to 206 *)
Definition _handleError (error : value) : M unit :=
  _log [VStr "WebSocket error:"; error] ;;;
  _emit (VStr "error") error.

(** [_handleMessage(event)], lines 208 to 224 *)
Definition _handleMessage (data : string) : M unit :=
  try_catch
    (let! message := match JSON_parse data with
                | Some v => ret v
                | None => throw SyntaxError
                end in
     let! type := prop message "type" in
     _log [VStr "Received message:"; type] ;;;
     when (truthy type)
       (let! d := prop message "data" in _emit type (js_or d message)) ;;;
     _emit (VStr "message") message)
    (fun error => _log [VStr "Failed to parse message:"; error]).

(** [cleanup()], lines 291 to 297 *)
Definition cleanup : M unit :=
  disconnect ;;;
  modify (set_eventListeners ∅) ;;;
  modify (set_subscriptions ∅) ;;;
  modify (set_messageQueue []).

(** The heartbeat closure, lines 263 to 267 *)
Definition heartbeat_tick : M unit :=
  let! is_open := gets ws_is_open in
  when is_open (_send (VObj [("type", VStr "ping")])).

(** The reconnect closure, lines 252 to 255 *)
Definition reconnect_tick : M unit :=
  modify (set_reconnectTimer None) ;;;
  connect.

End Methods.

(** ** The singleton accessor (lines 299 to 312) *)

(** [getWebSocketClient(config = null)] on the module variable
    [wsClientInstance]; the result pairs what the call does (returns or
    throws) with the module variable afterwards. *)
Definition getWebSocketClient `{Host} (config : ctor_arg) (wsClientInstance : option state)
  : outcome unit * option state :=
  match wsClientInstance with
  | Some st => (Normal tt, Some st)
  | None =>
      let config := match config with NoArg => NullArg | c => c end in
      match WebSocketClient_new config with
      | Thrown e => (Thrown e, None)
      | Normal st => let '(r, st') := connect st in (r, Some st')
      end
  end.

(** ** Actions and runs *)

(** A call of a public method, or an event the host delivers to a
    handler that [connect] attached (lines 42 to 45) or to a timer
    closure, or the start of a closing handshake by the peer, which the
    host notes in [readyState] without calling any handler. *)
Inductive action : Type :=
| CallConnect
| CallDisconnect
| CallSubscribe (topic : string) (filter : option string) (interval : option Z)
| CallUnsubscribe (topic : string) (filter : option string)
| CallOn (event : string) (cb : callback)
| CallOff (event : string) (cb : callback)
| CallSend (data : value)
| CallCleanup
| OnOpen (s : nat)
| OnClose (s : nat) (code : Z) (reason : string)
| OnError (s : nat) (error : value)
| OnMessage (s : nat) (data : string)
| OnClosing (s : nat)
| TimerFires (h : nat).

(** What the host allows: a socket opens once, while connecting; it
    closes once; it reports errors until it has closed; it delivers
    messages once open and until it has closed; the peer can start the
    closing handshake of an open socket; a timer fires while it is set. *)
Definition enabled (a : action) (st : state) : bool :=
  match a with
  | OnOpen s => bool_decide (sockets st !! s = Some CONNECTING)
  | OnClose s _ _ | OnError s _ =>
      bool_decide (s < length (sockets st)) && negb (bool_decide (readyState_of s st = CLOSED))
  | OnMessage s _ =>
      bool_decide (sockets st !! s = Some OPEN) || bool_decide (sockets st !! s = Some CLOSING)
  | OnClosing s => bool_decide (sockets st !! s = Some OPEN)
  | TimerFires h => bool_decide (is_Some (mjoin (timers st !! h)))
  | _ => true
  end.

(** An exception that leaves a handler ends that handler only: the
    event loop reports it and goes on. *)
Definition event_loop (handler : M unit) : M unit :=
  try_catch handler (fun e => perform (Uncaught e)).

Definition exec `{Host} (a : action) : M unit :=
  match a with
  | CallConnect => connect
  | CallDisconnect => disconnect
  | CallSubscribe topic filter interval => subscribe topic filter interval
  | CallUnsubscribe topic filter => unsubscribe topic filter
  | CallOn event cb => on event cb
  | CallOff event cb => off event cb
  | CallSend data => send data
  | CallCleanup => cleanup
  | OnOpen s =>
      modify (fun st => set_sockets (<[s:=OPEN]> (sockets st)) st) ;;;
      event_loop _handleOpen
  | OnClose s code reason =>
      modify (fun st => set_sockets (<[s:=CLOSED]> (sockets st)) st) ;;;
      event_loop (_handleClose code reason)
  | OnError s error => event_loop (_handleError error)
  | OnMessage s data => event_loop (_handleMessage data)
  | OnClosing s => modify (fun st => set_sockets (<[s:=CLOSING]> (sockets st)) st)
  | TimerFires h =>
      let! fn := gets (fun st => mjoin (timers st !! h)) in
      match fn with
      | Some ReconnectFn =>
          modify (fun st => set_timers (<[h:=None]> (timers st)) st) ;;;
          event_loop reconnect_tick
      | Some HeartbeatFn => event_loop heartbeat_tick
      | None => ret tt
      end
  end.

Definition step `{Host} (a : action) (st : state) : state := (exec a st).2.

Fixpoint run `{Host} (l : list action) (st : state) : state :=
  match l with
  | [] => st
  | a :: l' => run l' (step a st)
  end.

(** Every action of the run is one the host allows when its turn comes. *)
Fixpoint valid `{Host} (l : list action) (st : state) : bool :=
  match l with
  | [] => true
  | a :: l' => enabled a st && valid l' (step a st)
  end.

Definition reachable `{Host} (cfg : Config) (st : state) : Prop :=
  exists l, valid l (fresh cfg) = true /\ run l (fresh cfg) = st.

(** ** Reading a trace *)

(** The payloads listener [cb] was called with, oldest first. *)
Definition calls_of (cb : callback) (t : list effect) : list value :=
  omap (fun e => match e with
                 | Called cb' d => if bool_decide (cb' = cb) then Some d else None
                 | _ => None
                 end) t.

(** The frames written to socket [s], oldest first. *)
Definition sent_on (s : nat) (t : list effect) : list string :=
  omap (fun e => match e with
                 | WsSend s' f => if bool_decide (s' = s) then Some f else None
                 | _ => None
                 end) t.

(** The frames written to any socket. *)
Definition sent (t : list effect) : list string :=
  omap (fun e => match e with WsSend _ f => Some f | _ => None end) t.

(** The timeouts set, each with its handle and delay. *)
Definition timeouts (t : list effect) : list (nat * Z) :=
  omap (fun e => match e with SetTimeout h d => Some (h, d) | _ => None end) t.

(** The sockets created. *)
Definition created (t : list effect) : list nat :=
  omap (fun e => match e with WsNew s _ => Some s | _ => None end) t.

(** The [close] calls made on sockets. *)
Definition closes (t : list effect) : list (nat * Z * string) :=
  omap (fun e => match e with WsClose s c r => Some (s, c, r) | _ => None end) t.

(** The exceptions that left a handler. *)
Definition uncaught (t : list effect) : list value :=
  omap (fun e => match e with Uncaught x => Some x | _ => None end) t.

(** A host for examples: every address is accepted, every listener
    returns, and a text is parsed by looking it up in a table. *)
Definition table_host (table : list (string * value)) (bad_url : bool)
    (throwing : list callback) : Host :=
  {| WebSocket_accepts := fun _ => negb bad_url;
     JSON_parse := fun text =>
       (fix find (t : list (string * value)) : option value :=
          match t with
          | [] => None
          | (k, v) :: t' => if String.eqb k text then Some v else find t'
          end) table;
     listener_throws := fun cb _ =>
       if bool_decide (cb ∈ throwing) then Some (VStr "listener failed") else None;
     REACT_APP_WS_URL := VUndefined;
     WEBSOCKET_PORT := VUndefined |}.

Definition plain_host : Host := table_host [] false [].

(** ** Vocabulary of the statements *)

(** [st] with the effects [t] added to its trace. *)
Definition add_trace (t : list effect) (st : state) : state :=
  {| config := config st; ws := ws st; connected := connected st;
     reconnectAttempts := reconnectAttempts st; reconnectTimer := reconnectTimer st;
     heartbeatTimer := heartbeatTimer st; subscriptions := subscriptions st;
     eventListeners := eventListeners st; messageQueue := messageQueue st;
     sockets := sockets st; timers := timers st; trace := trace st ++ t |}.

(** What [_log(args)] prints. *)
Definition log_effects (dbg : bool) (args : list value) : list effect :=
  if dbg then [ConsoleLog (VStr "[WebSocketClient]" :: args)] else [].

(** What one listener adds to the trace when called with [data]: the
    call, and the log line of the [catch] when it throws. *)
Definition listener_effects `{Host} (dbg : bool) (data : value) (cb : callback) : list effect :=
  Called cb data ::
  match listener_throws cb data with
  | Some error => log_effects dbg [VStr "Error in event listener:"; error]
  | None => []
  end.

(** What [_emit(event, data)] adds to the trace. *)
Definition emit_effects `{Host} (dbg : bool) (ls : gmap string (list callback))
    (event data : value) : list effect :=
  flat_map (listener_effects dbg (or_null data)) (listeners event ls).

(** The listener calls of a trace, oldest first. *)
Definition called (t : list effect) : list (callback * value) :=
  omap (fun e => match e with Called cb d => Some (cb, d) | _ => None end) t.

(** The three calls that put a message on the wire, with the frame each
    one stands for (the client to server frames of the wire protocol). *)
Inductive out_call : Type :=
| OutSend (data : value)
| OutSubscribe (topic : string) (filter : option string) (interval : Z)
| OutUnsubscribe (topic : string) (filter : option string).

Definition call_action (c : out_call) : action :=
  match c with
  | OutSend data => CallSend data
  | OutSubscribe topic filter interval => CallSubscribe topic filter (Some interval)
  | OutUnsubscribe topic filter => CallUnsubscribe topic filter
  end.

Definition call_frame (c : out_call) : string :=
  match c with
  | OutSend data => frame_of (VObj [("type", VStr "data"); ("data", data)])
  | OutSubscribe topic filter interval =>
      frame_of (VObj [("type", VStr "subscribe"); ("topic", VStr topic);
                      ("filter", filter_value filter); ("interval", VInt interval)])
  | OutUnsubscribe topic filter =>
      frame_of (VObj [("type", VStr "unsubscribe"); ("topic", VStr topic);
                      ("filter", filter_value filter)])
  end.

(** Every reconnect timer the host still holds is the one the client
    remembers, and every heartbeat timer likewise. *)
Definition tidy (st : state) : Prop :=
  forall h fn, timers st !! h = Some (Some fn) ->
    match fn with
    | ReconnectFn => reconnectTimer st = Some h
    | HeartbeatFn => heartbeatTimer st = Some h
    end.

(** Automatic reconnection is switched off: the counter is at the
    ceiling and no reconnect timer is set, in the client or in the host. *)
Definition suppressed (st : state) : Prop :=
  reconnectAttempts st = maxReconnectAttempts (config st)
  /\ reconnectTimer st = None
  /\ forall h, timers st !! h <> Some (Some ReconnectFn).

Definition is_open_event (a : action) : bool :=
  match a with OnOpen _ => true | _ => false end.

Definition is_connect_call (a : action) : bool :=
  match a with CallConnect => true | _ => false end.



(** A run is orderly when no close event comes from a socket that the
    client has already replaced by a newer one. *)
Definition orderly_action (a : action) (st : state) : bool :=
  match a with
  | OnClose s _ _ => bool_decide (ws st = Some s) || bool_decide (ws st = None)
  | _ => true
  end.

Fixpoint orderly `{Host} (l : list action) (st : state) : bool :=
  match l with
  | [] => true
  | a :: l' => orderly_action a st && orderly l' (step a st)
  end.

(** The invariant of orderly runs: the heartbeat timer exists exactly
    when the [connected] flag is set, a socket that is still connecting is
    the client's own, and the flag is set whenever the client's socket is
    open. *)
Definition in_step (st : state) : Prop :=
  (is_Some (heartbeatTimer st) <-> connected st = true)
  /\ (forall s, sockets st !! s = Some CONNECTING -> ws st = Some s)
  /\ (ws_is_open st = true -> connected st = true).

(** What [in_step] looks at, and [in_step] said of these four alone. *)
Definition core (st : state) : option nat * bool * option nat * list readyState :=
  (ws st, connected st, heartbeatTimer st, sockets st).

Definition settled (c : option nat * bool * option nat * list readyState) : Prop :=
  let '(w, con, hb, socks) := c in
  (is_Some hb <-> con = true)
  /\ (forall s, socks !! s = Some CONNECTING -> w = Some s)
  /\ ((exists s, w = Some s /\ socks !! s = Some OPEN) -> con = true).

(** Configurations and runs of the examples. *)
Definition cfg_two_attempts : Config :=
  {| url := "ws://localhost:8080"; reconnectDelay := 100; maxReconnectAttempts := 2;
     heartbeatInterval := 1000; debug := false |}.

Definition cfg_default : Config :=
  {| url := "ws://localhost:8080"; reconnectDelay := 5000; maxReconnectAttempts := 5;
     heartbeatInterval := 30000; debug := false |}.
(** Runs of the examples.  Sockets and timers are numbered from 0 in the
    order of their creation. *)

(** Listener 1 hears [reconnecting], listener 2 [reconnect_failed]; then
    three sockets in a row close abnormally, the reconnect timer firing
    in between. *)
Definition run_three_closures : list action :=
  [CallOn "reconnecting" 1; CallOn "reconnect_failed" 2; CallConnect;
   OnClose 0 1006 ""; TimerFires 0; OnClose 1 1006 ""; TimerFires 1;
   OnClose 2 1006 ""].

(** The caller disconnects and connects again before the close event of
    the first socket has arrived; that event then makes the client forget
    the second socket. *)
Definition run_replaced_socket : list action :=
  [CallConnect; CallDisconnect; CallConnect; OnClose 0 1006 ""].

Definition run_reconnect_after_disconnect : list action :=
  run_replaced_socket ++ [CallDisconnect; OnOpen 1; OnClose 1 1006 ""; TimerFires 1].

Definition run_open_without_heartbeat : list action :=
  run_replaced_socket ++ [CallSend (VInt 1); OnOpen 1].

Definition run_heartbeat_while_connecting : list action :=
  run_replaced_socket ++ [CallConnect; OnOpen 1].

(** Two calls are queued while the second socket is connecting and the
    client has forgotten it; then that socket opens. *)
Definition run_queue_lost : list action :=
  run_replaced_socket
  ++ [CallSend (VInt 1); CallSubscribe "sensor_data" (Some "site_a") (Some 5000%Z);
      OnOpen 1].


(** A reconnect timer is pending when the caller disconnects; later the
    caller connects again and that socket fails. *)
Definition run_retry_pending : list action := [CallConnect; OnClose 0 1006 ""].
Definition run_after_disconnect : list action :=
  [CallConnect; OnError 1 VNull; OnClose 1 1006 ""].

(** Frames of the examples and what [JSON.parse] makes of them. *)
Definition frame_update : string := dq "{'type':'sensor_data_update','data':{'temp':28.5}}".
Definition value_update : value :=
  VObj [("type", VStr "sensor_data_update"); ("data", VObj [("temp", VNum 285 1)])].

Definition frame_alert_off : string := dq "{'type':'alert','data':false}".
Definition value_alert_off : value := VObj [("type", VStr "alert"); ("data", VBool false)].

Definition frame_no_type : string := dq "{'type':'','data':1}".
Definition value_no_type : value := VObj [("type", VStr ""); ("data", VInt 1)].

Definition frames_host : Host :=
  table_host [(frame_update, value_update); (frame_alert_off, value_alert_off);
              (frame_no_type, value_no_type)] false [].

(** A property of a value that is an object, [undefined] otherwise. *)
Definition field (k : string) (v : value) : value :=
  match v with VObj fs => assoc k fs | _ => VUndefined end.

(** A host whose [WebSocket] constructor refuses every address. *)
Definition refusing_host : Host := table_host [] true [].

(** The calls an emission of [event] with payload [data] makes in state
    [st], when no listener throws. *)
Definition heard (st : state) (event : string) (data : value) : list (callback * value) :=
  map (fun cb => (cb, data)) (listeners (VStr event) (eventListeners st)).

(** [connect()], then the next [k] timers of the host firing in turn. *)
Definition connect_and_retries (st : state) (k : nat) : list action :=
  CallConnect :: map TimerFires (seq (length (timers st)) k).

Example stringify_subscribe :
  frame_of (VObj [("type", VStr "subscribe"); ("topic", VStr "sensor_data");
                  ("filter", VStr "site_a"); ("interval", VInt 5000)])
  = dq "{'type':'subscribe','topic':'sensor_data','filter':'site_a','interval':5000}".
Proof. reflexivity. Qed.

Example stringify_nested :
  frame_of (VObj [("type", VStr "data"); ("data", VObj [("temp", VNum 285 1); ("x", VUndefined)])])
  = dq "{'type':'data','data':{'temp':28.5}}".
Proof. reflexivity. Qed.

(** * Lemmas and theorems *)

(** ** Traces *)

Lemma add_trace_nil st : add_trace [] st = st.
Proof. destruct st; unfold add_trace; simpl. by rewrite app_nil_r. Qed.

Lemma add_trace_app t1 t2 st :
  add_trace t2 (add_trace t1 st) = add_trace (t1 ++ t2) st.
Proof. unfold add_trace; simpl. by rewrite app_assoc. Qed.

Lemma called_app t1 t2 : called (t1 ++ t2) = called t1 ++ called t2.
Proof. unfold called. apply omap_app. Qed.

Lemma sent_app t1 t2 : sent (t1 ++ t2) = sent t1 ++ sent t2.
Proof. unfold sent. apply omap_app. Qed.

Lemma sent_on_app s t1 t2 : sent_on s (t1 ++ t2) = sent_on s t1 ++ sent_on s t2.
Proof. unfold sent_on. apply omap_app. Qed.

Lemma calls_of_app cb t1 t2 : calls_of cb (t1 ++ t2) = calls_of cb t1 ++ calls_of cb t2.
Proof. unfold calls_of. apply omap_app. Qed.

Lemma omap_log_effects {B} (f : effect -> option B) dbg args :
  (forall a, f (ConsoleLog a) = None) -> omap f (log_effects dbg args) = [].
Proof. intros Hf. destruct dbg; simpl; [|done]. by rewrite Hf. Qed.

Section Emit.
Context `{Host}.

Lemma called_emit_effects dbg ls event data :
  called (emit_effects dbg ls event data)
  = map (fun cb => (cb, or_null data)) (listeners event ls).
Proof.
  unfold emit_effects. induction (listeners event ls) as [|cb l IH]; [done|].
  cbn [flat_map map]. rewrite called_app, IH. unfold listener_effects.
  destruct (listener_throws cb (or_null data)); [|done].
  change (Called cb ?d :: ?t) with ([Called cb d] ++ t).
  unfold called at 1. by rewrite omap_app, omap_log_effects.
Qed.

(** [_emit] calls listeners and may log; it does nothing else. *)
Lemma omap_emit_effects {B} (f : effect -> option B) dbg ls event data :
  (forall a, f (ConsoleLog a) = None) -> (forall cb d, f (Called cb d) = None) ->
  omap f (emit_effects dbg ls event data) = [].
Proof.
  intros HL HC. unfold emit_effects.
  induction (listeners event ls) as [|cb l IH]; [done|].
  cbn [flat_map]. rewrite omap_app, IH, app_nil_r. unfold listener_effects.
  cbn [omap list_omap]. rewrite HC.
  destruct (listener_throws cb (or_null data)); [by apply omap_log_effects | done].
Qed.

(** *** What [_log] and [_emit] do *)

Lemma _log_eq args st :
  _log args st = (Normal tt, add_trace (log_effects (debug (config st)) args) st).
Proof.
  unfold _log, log_effects, bind, gets, when, perform, modify, ret.
  destruct (debug (config st)); [done|]. by rewrite add_trace_nil.
Qed.

Lemma forEach_listeners d l st :
  forEach l (fun callback =>
    try_catch (call callback d)
      (fun error => _log [VStr "Error in event listener:"; error])) st
  = (Normal tt, add_trace (flat_map (listener_effects (debug (config st)) d) l) st).
Proof.
  revert st. induction l as [|cb l IH]; intros st; simpl.
  - unfold ret. by rewrite add_trace_nil.
  - unfold bind at 1.
    unfold try_catch, call, bind, perform, modify, throw, ret, listener_effects.
    destruct (listener_throws cb d) as [e|]; simpl.
    + rewrite _log_eq, IH. change (log_effect ?e ?s) with (add_trace [e] s).
      by rewrite !add_trace_app.
    + rewrite IH. change (log_effect ?e ?s) with (add_trace [e] s).
      by rewrite !add_trace_app.
Qed.

Lemma _emit_eq event data st :
  _emit event data st
  = (Normal tt, add_trace (emit_effects (debug (config st)) (eventListeners st) event data) st).
Proof.
  unfold _emit, emit_effects. unfold bind at 1. unfold gets.
  apply forEach_listeners.
Qed.

End Emit.

(** *** The replay loop *)

(** Whatever happens, the loop only shortens the queue and writes frames
    to the client's socket. *)
Lemma drain_shape q st :
  exists o q' fs,
    drain q st
    = (o, add_trace (map (WsSend (default 0 (ws st))) fs) (set_messageQueue q' st)).
Proof.
  revert st. induction q as [|m rest IH]; intros st.
  - exists (Normal tt), (messageQueue st), []. simpl. unfold ret.
    rewrite add_trace_nil. by destruct st.
  - simpl. unfold bind at 1. unfold modify. unfold bind at 1.
    unfold this_ws_send. unfold bind at 1. unfold gets. simpl.
    destruct (ws st) as [s|] eqn:Hw.
    + unfold ws_send. simpl.
      change (readyState_of s (set_messageQueue rest st)) with (readyState_of s st).
      destruct (readyState_of s st) eqn:Hr.
      * exists (Thrown InvalidStateError), rest, []. simpl. by rewrite add_trace_nil.
      * destruct (IH (log_effect (WsSend s m) (set_messageQueue rest st)))
          as (o & q' & fs & E).
        rewrite E. exists o, q', (m :: fs). simpl. rewrite Hw. simpl.
        unfold add_trace, set_messageQueue, log_effect. simpl.
        by rewrite <- app_assoc.
      * destruct (IH (set_messageQueue rest st)) as (o & q' & fs & E).
        rewrite E. exists o, q', fs. simpl. by rewrite Hw.
      * destruct (IH (set_messageQueue rest st)) as (o & q' & fs & E).
        rewrite E. exists o, q', fs. simpl. by rewrite Hw.
    + exists (Thrown TypeError), rest, []. simpl. unfold throw.
      by rewrite add_trace_nil.
Qed.

(** Onto an open socket the loop writes the whole queue, in order. *)
Lemma drain_open q st s :
  ws st = Some s -> readyState_of s st = OPEN -> messageQueue st = q ->
  drain q st = (Normal tt, add_trace (map (WsSend s) q) (set_messageQueue [] st)).
Proof.
  revert st. induction q as [|m rest IH]; intros st Hw Hr Hq.
  - simpl. unfold ret. rewrite add_trace_nil. destruct st; simpl in *. by subst.
  - simpl. unfold bind at 1. unfold modify. unfold bind at 1.
    unfold this_ws_send. unfold bind at 1. unfold gets. simpl. rewrite Hw.
    unfold ws_send. simpl.
    change (readyState_of s (set_messageQueue rest st)) with (readyState_of s st).
    rewrite Hr. rewrite IH; [|done..].
    unfold add_trace, set_messageQueue, log_effect. simpl.
    by rewrite <- app_assoc.
Qed.

Lemma omap_sends {B} (f : effect -> option B) s fs :
  (forall s' x, f (WsSend s' x) = None) -> omap f (map (WsSend s) fs) = [].
Proof. intros Hf. induction fs as [|x fs IH]; [done|]. simpl. by rewrite Hf. Qed.

Arguments _log : simpl never.
Arguments _emit : simpl never.
Arguments emit_effects : simpl never.
Arguments log_effects : simpl never.
Arguments frame_of : simpl never.

(** Symbolic execution of a method: unfold the monad, replace [_log] and
    [_emit] by their effects, and split on what the code tests. *)
Ltac unfold_monad :=
  unfold event_loop, when, perform, bind, gets, modify, ret, throw, try_catch in *.

Ltac unfold_methods :=
  unfold step, exec, cleanup, reconnect_tick, heartbeat_tick, connect, disconnect,
    subscribe, unsubscribe, on, off, send, _handleOpen, _handleClose, _handleError,
    _handleMessage, _scheduleReconnect, _startHeartbeat, _send, this_ws_send,
    ws_send, ws_close, new_WebSocket, setTimeout, setInterval, new_timer,
    clearTimeout, clearInterval, prop, ws_is_open in *.

Ltac case_inner :=
  match goal with
  | |- context [match ?x with _ => _ end] =>
      lazymatch x with
      | context [match _ with _ => _ end] => fail
      | _ => destruct x eqn:?
      end
  end.

Ltac sx :=
  repeat first
    [ rewrite _log_eq
    | rewrite _emit_eq
    | progress simpl
    | match goal with
      | |- context [drain ?q ?s] =>
          let E := fresh "E" in
          destruct (drain_shape q s) as (? & ? & ? & E); rewrite E; clear E
      end
    | case_inner ].

Ltac run_method := unfold_methods; unfold_monad; sx.

(** Reading a projection of a trace built by appending. *)
Ltac read_trace :=
  unfold timeouts, created, closes, uncaught, sent, sent_on, calls_of in *;
  simpl;
  repeat first
    [ rewrite omap_app
    | rewrite omap_emit_effects by done
    | rewrite omap_log_effects by done
    | rewrite omap_sends by done
    | rewrite app_nil_r
    | progress simpl ].

(** Closing the cases that contradict what was tested. *)
Ltac fin :=
  try done;
  repeat match goal with
    | H : bool_decide _ = true |- _ => apply bool_decide_eq_true_1 in H
    | H : bool_decide _ = false |- _ => apply bool_decide_eq_false_1 in H
    end;
  try congruence; try done.

(** ** C8: failures stay inside *)

(** C8.  Whatever its listeners do, [_emit] returns normally after it has
    called every listener registered for the event, once each and in
    registration order, with the payload; and [connect()], [send()] and
    [subscribe()] return normally in every state, also when the host
    refuses to create the socket. *)
Theorem C8_listener_and_transport_failures_contained `{Host} :
  (forall event data st,
     exists st', _emit event data st = (Normal tt, st')
       /\ called (trace st')
          = called (trace st)
            ++ map (fun cb => (cb, or_null data)) (listeners event (eventListeners st)))
  /\ (forall st, (connect st).1 = Normal tt)
  /\ (forall data st, (send data st).1 = Normal tt)
  /\ (forall topic filter interval st, (subscribe topic filter interval st).1 = Normal tt).
Proof.
  repeat split.
  - intros event data st. eexists. split; [apply _emit_eq|].
    simpl. by rewrite called_app, called_emit_effects.
  - intros st. run_method; fin.
  - intros data st. run_method; fin.
  - intros topic filter interval st. run_method; fin.
Qed.

(** ** Timer tables *)

Lemma lookup_clear_Some (l : list (option timer_fn)) n h fn :
  <[n:=None]> l !! h = Some (Some fn) -> l !! h = Some (Some fn) /\ n <> h.
Proof.
  intros E. destruct (decide (n = h)) as [->|Hne].
  - destruct (decide (h < length l)).
    + by rewrite list_lookup_insert_eq in E.
    + rewrite list_insert_ge in E by lia. rewrite lookup_ge_None_2 in E by lia. done.
  - by rewrite list_lookup_insert_ne in E.
Qed.

Lemma lookup_new_Some (l : list (option timer_fn)) x h fn :
  (l ++ [x]) !! h = Some (Some fn) ->
  l !! h = Some (Some fn) \/ (h = length l /\ x = Some fn).
Proof.
  intros E. apply lookup_app_Some in E as [E|[Hl E]]; [by left|right].
  destruct (h - length l) as [|k] eqn:Hk; simpl in E; [|by destruct k].
  split; [lia|congruence].
Qed.

(** Turning the tests of the code into facts. *)
Ltac tests :=
  repeat match goal with
    | H : (_ && _) = true |- _ => apply andb_true_iff in H as [? ?]
    | H : (_ || _) = false |- _ => apply orb_false_iff in H as [? ?]
    | H : negb _ = true |- _ => apply negb_true_iff in H
    | H : negb _ = false |- _ => apply negb_false_iff in H
    | H : (_ >=? _)%Z = true |- _ => apply Z.geb_le in H
    | H : (_ >=? _)%Z = false |- _ => rewrite Z.geb_leb in H; apply Z.leb_gt in H
    | H : (_ <? _)%Z = true |- _ => apply Z.ltb_lt in H
    | H : (_ <? _)%Z = false |- _ => apply Z.ltb_ge in H
    | H : (_ =? _)%Z = true |- _ => apply Z.eqb_eq in H
    | H : (_ =? _)%Z = false |- _ => apply Z.eqb_neq in H
    | H : bool_decide _ = true |- _ => apply bool_decide_eq_true_1 in H
    | H : bool_decide _ = false |- _ => apply bool_decide_eq_false_1 in H
    end.

(** ** Projections of a trace, piece by piece *)

Lemma timeouts_app t1 t2 : timeouts (t1 ++ t2) = timeouts t1 ++ timeouts t2.
Proof. apply omap_app. Qed.
Lemma created_app t1 t2 : created (t1 ++ t2) = created t1 ++ created t2.
Proof. apply omap_app. Qed.
Lemma closes_app t1 t2 : closes (t1 ++ t2) = closes t1 ++ closes t2.
Proof. apply omap_app. Qed.
Lemma uncaught_app t1 t2 : uncaught (t1 ++ t2) = uncaught t1 ++ uncaught t2.
Proof. apply omap_app. Qed.

Lemma called_log dbg args : called (log_effects dbg args) = [].
Proof. by apply omap_log_effects. Qed.
Lemma calls_of_log cb dbg args : calls_of cb (log_effects dbg args) = [].
Proof. by apply omap_log_effects. Qed.
Lemma sent_log dbg args : sent (log_effects dbg args) = [].
Proof. by apply omap_log_effects. Qed.
Lemma sent_on_log s dbg args : sent_on s (log_effects dbg args) = [].
Proof. by apply omap_log_effects. Qed.
Lemma timeouts_log dbg args : timeouts (log_effects dbg args) = [].
Proof. by apply omap_log_effects. Qed.
Lemma created_log dbg args : created (log_effects dbg args) = [].
Proof. by apply omap_log_effects. Qed.
Lemma closes_log dbg args : closes (log_effects dbg args) = [].
Proof. by apply omap_log_effects. Qed.
Lemma uncaught_log dbg args : uncaught (log_effects dbg args) = [].
Proof. by apply omap_log_effects. Qed.

Lemma sent_emit `{Host} dbg ls ev d : sent (emit_effects dbg ls ev d) = [].
Proof. by apply omap_emit_effects. Qed.
Lemma sent_on_emit `{Host} s dbg ls ev d : sent_on s (emit_effects dbg ls ev d) = [].
Proof. by apply omap_emit_effects. Qed.
Lemma timeouts_emit `{Host} dbg ls ev d : timeouts (emit_effects dbg ls ev d) = [].
Proof. by apply omap_emit_effects. Qed.
Lemma created_emit `{Host} dbg ls ev d : created (emit_effects dbg ls ev d) = [].
Proof. by apply omap_emit_effects. Qed.
Lemma closes_emit `{Host} dbg ls ev d : closes (emit_effects dbg ls ev d) = [].
Proof. by apply omap_emit_effects. Qed.
Lemma uncaught_emit `{Host} dbg ls ev d : uncaught (emit_effects dbg ls ev d) = [].
Proof. by apply omap_emit_effects. Qed.

Lemma sent_sends s q : sent (map (WsSend s) q) = q.
Proof. induction q as [|x q IH]; [done|]. simpl. by f_equal. Qed.
Lemma sent_on_sends s q : sent_on s (map (WsSend s) q) = q.
Proof.
  induction q as [|x q IH]; [done|]. simpl.
  rewrite bool_decide_eq_true_2 by done. by f_equal.
Qed.
Lemma called_sends s q : called (map (WsSend s) q) = [].
Proof. by apply omap_sends. Qed.
Lemma calls_of_sends cb s q : calls_of cb (map (WsSend s) q) = [].
Proof. by apply omap_sends. Qed.
Lemma timeouts_sends s q : timeouts (map (WsSend s) q) = [].
Proof. by apply omap_sends. Qed.
Lemma created_sends s q : created (map (WsSend s) q) = [].
Proof. by apply omap_sends. Qed.
Lemma closes_sends s q : closes (map (WsSend s) q) = [].
Proof. by apply omap_sends. Qed.
Lemma uncaught_sends s q : uncaught (map (WsSend s) q) = [].
Proof. by apply omap_sends. Qed.

(** A listener that is not registered for an event is not called by it. *)
Lemma calls_of_emit_other `{Host} cb dbg ls ev d :
  cb ∉ listeners ev ls -> calls_of cb (emit_effects dbg ls ev d) = [].
Proof.
  unfold emit_effects. induction (listeners ev ls) as [|cb' l IH]; [done|].
  intros Hn. apply not_elem_of_cons in Hn as [Hne Hn].
  cbn [flat_map]. rewrite calls_of_app, (IH Hn), app_nil_r. unfold listener_effects.
  change (Called cb' ?x :: ?t) with ([Called cb' x] ++ t).
  rewrite calls_of_app. simpl. rewrite bool_decide_eq_false_2 by done. simpl.
  destruct (listener_throws cb' (or_null d)); [apply calls_of_log | done].
Qed.

Create Rewrite HintDb traces.
#[global] Hint Rewrite called_app calls_of_app sent_app sent_on_app timeouts_app
  created_app closes_app uncaught_app called_log calls_of_log sent_log sent_on_log
  timeouts_log created_log closes_log uncaught_log @sent_emit @sent_on_emit
  @timeouts_emit @created_emit @closes_emit @uncaught_emit sent_sends sent_on_sends
  called_sends calls_of_sends timeouts_sends created_sends closes_sends
  uncaught_sends @called_emit_effects : traces.

Ltac proj_trace := autorewrite with traces; simpl; rewrite ?app_nil_r.

(** ** What every action leaves alone *)

Section Frames.
Context `{Host}.

Lemma config_step a st : config (step a st) = config st.
Proof. destruct a; run_method; fin. Qed.

Lemma config_run l st : config (run l st) = config st.
Proof.
  revert st. induction l as [|a l IH]; intros st; [done|].
  simpl. by rewrite IH, config_step.
Qed.

Lemma subscriptions_step a st :
  subscriptions (step a st) = subscriptions st \/ subscriptions (step a st) = ∅.
Proof. destruct a; run_method; fin; auto. Qed.


Lemma eventListeners_step a st :
  match a with CallOn _ _ | CallOff _ _ | CallCleanup => True | _ =>
    eventListeners (step a st) = eventListeners st end.
Proof. destruct a; try done; run_method; fin. Qed.

End Frames.

(** ** Timers stay accounted for *)

Section Tidy.
Context `{Host}.

Lemma tidy_fresh cfg : tidy (fresh cfg).
Proof. intros h fn E. simpl in E. by rewrite lookup_nil in E. Qed.

Ltac timer_cases :=
  repeat match goal with
    | E : <[_:=None]> _ !! _ = Some (Some _) |- _ =>
        apply lookup_clear_Some in E as [E ?]
    | E : (_ ++ [_]) !! _ = Some (Some _) |- _ =>
        apply lookup_new_Some in E as [E|[? E]]
    end.

(** No action loses track of a timer: one that is still set in the host
    is the one the client would clear. *)
Lemma tidy_step a st : tidy st -> tidy (step a st).
Proof.
  intros T. unfold tidy in *.
  destruct a; run_method; tests; fin.
  all: intros hx fnx E; simpl in *; timer_cases; simplify_eq; try done.
  all: try (specialize (T _ _ E); destruct fnx; simplify_eq; done).
  all: match goal with
       | Hm : mjoin (timers ?s !! ?h) = Some ReconnectFn |- _ =>
           assert (timers s !! h = Some (Some ReconnectFn)) as Hh
             by (destruct (timers s !! h) as [[?|]|]; simplify_eq/=; done)
       end.
  all: pose proof (T _ _ Hh) as T1; pose proof (T _ _ E) as T2; simpl in *.
  all: destruct fnx; simplify_eq; done.
Qed.

Lemma tidy_run l st : tidy st -> tidy (run l st).
Proof.
  revert st. induction l as [|a l IH]; intros st T; [done|].
  simpl. by apply IH, tidy_step.
Qed.

(** In every reachable state at most one reconnect timer is pending,
    the one in [reconnectTimer], and at most one heartbeat timer, the one
    in [heartbeatTimer]. *)
Lemma reachable_tidy cfg st : reachable cfg st -> tidy st.
Proof. intros (l & _ & <-). apply tidy_run, tidy_fresh. Qed.


End Tidy.

(** ** C10: disconnect in any state, and what it switches off *)

Section Suppression.
Context `{Host}.

Ltac no_reconnect_timer :=
  let h := fresh "h" in let E := fresh "E" in
  intros h E;
  repeat first
    [ apply lookup_clear_Some in E as [E ?]
    | apply lookup_new_Some in E as [E|[? E]]; [|discriminate E] ];
  naive_solver.

(** While automatic reconnection is switched off, no action other than
    an open event switches it on again or sets a timeout. *)
Lemma suppressed_step a st :
  suppressed st -> is_open_event a = false ->
  suppressed (step a st) /\ timeouts (trace (step a st)) = timeouts (trace st).
Proof.
  intros (Ha & Ht & Hp) Ho. unfold suppressed.
  destruct a; try discriminate Ho; run_method; tests; try congruence; try lia.
  all: read_trace.
  all: try (split_and!; try done; try no_reconnect_timer).
Qed.

(** Nor does it create a socket, unless it is a call of [connect()],
    which creates at most one. *)
Lemma suppressed_step_created a st :
  suppressed st -> is_open_event a = false ->
  exists new, created (trace (step a st)) = created (trace st) ++ new
              /\ length new <= (if is_connect_call a then 1 else 0).
Proof.
  intros (Ha & Ht & Hp) Ho.
  destruct a; try discriminate Ho; run_method; tests; try congruence; try lia.
  all: autorewrite with traces; simpl; rewrite ?app_nil_r.
  all: try (exists []; rewrite app_nil_r; split; [done|simpl; lia]).
  all: try (eexists [_]; split; [reflexivity|simpl; lia]).
  all: exfalso;
       match goal with
       | Hm : mjoin (timers ?s !! ?h) = Some ReconnectFn |- _ =>
           apply (Hp h); destruct (timers s !! h) as [[?|]|]; simplify_eq/=; done
       end.
Qed.

Lemma suppressed_run l st :
  suppressed st -> forallb (fun a => negb (is_open_event a)) l = true ->
  suppressed (run l st)
  /\ timeouts (trace (run l st)) = timeouts (trace st)
  /\ exists new, created (trace (run l st)) = created (trace st) ++ new
                 /\ length new <= length (filter (fun a => is_connect_call a = true) l).
Proof.
  revert st. induction l as [|a l IH]; intros st S Hl.
  - split_and!; [done|done|]. exists []. by rewrite app_nil_r.
  - simpl in Hl. apply andb_true_iff in Hl as [Ha Hl]. apply negb_true_iff in Ha.
    destruct (suppressed_step a st S Ha) as [S' T'].
    destruct (suppressed_step_created a st S Ha) as (new1 & C1 & L1).
    destruct (IH _ S' Hl) as (S'' & T'' & new2 & C2 & L2).
    simpl. split_and!; [done|by rewrite T''|].
    exists (new1 ++ new2). rewrite C2, C1, <- app_assoc. split; [done|].
    rewrite length_app, filter_cons.
    destruct (is_connect_call a); case_decide; simpl in *; try done; lia.
Qed.

(** [disconnect()] switches automatic reconnection off. *)
Lemma disconnect_suppresses st : tidy st -> suppressed (step CallDisconnect st).
Proof.
  intros T. unfold suppressed. run_method; fin.
  all: split_and!; try done.
  all: intros hx E; simpl in *.
  all: repeat match goal with
         | E : <[_:=None]> _ !! _ = Some (Some _) |- _ =>
             apply lookup_clear_Some in E as [E ?]
         end.
  all: pose proof (T _ _ E) as T1; simpl in T1; congruence.
Qed.

Lemma disconnect_effects st :
  let st' := step CallDisconnect st in
  reconnectAttempts st' = maxReconnectAttempts (config st)
  /\ connected st' = false
  /\ ws st' = None
  /\ reconnectTimer st' = None
  /\ heartbeatTimer st' = None
  /\ called (trace st')
     = called (trace st)
       ++ map (fun cb => (cb, VNull)) (listeners (VStr "disconnected") (eventListeners st))
  /\ closes (trace st')
     = closes (trace st)
       ++ match ws st with Some s => [(s, 1000%Z, "Client disconnect")] | None => [] end
  /\ timeouts (trace st') = timeouts (trace st)
  /\ created (trace st') = created (trace st)
  /\ eventListeners st' = eventListeners st.
Proof.
  run_method; fin.
  all: split_and!; try done.
  all: read_trace; try done.
  all: unfold called; read_trace; try done.
  all: fold (called (trace st)); try (by rewrite called_emit_effects).
Qed.

End Suppression.

(** C10.  In every state, also one that never connected or is already
    disconnected, [disconnect()] sets the counter to the ceiling, clears
    the [connected] flag and calls the listeners of [disconnected] (with
    [null]); when there is no socket nothing is closed; a second
    [disconnect()] calls the listeners again.  From then on, as long as no
    socket opens, whatever else is called or happens: the counter stays at
    the ceiling, no reconnect timer exists, neither in the client nor in
    the host, none is set, and sockets are created only by the caller's
    own [connect()] calls, at most one by each. *)
Theorem C10_disconnect_without_connection `{Host} :
  (forall st,
     let st' := step CallDisconnect st in
     reconnectAttempts st' = maxReconnectAttempts (config st)
     /\ connected st' = false
     /\ called (trace st')
        = called (trace st)
          ++ map (fun cb => (cb, VNull)) (listeners (VStr "disconnected") (eventListeners st))
     /\ (ws st = None -> closes (trace st') = closes (trace st)))
  /\ (forall st,
     let once := map (fun cb => (cb, VNull))
                     (listeners (VStr "disconnected") (eventListeners st)) in
     called (trace (run [CallDisconnect; CallDisconnect] st))
     = called (trace st) ++ once ++ once)
  /\ (forall st l,
     tidy st -> forallb (fun a => negb (is_open_event a)) l = true ->
     let st' := run l (step CallDisconnect st) in
     reconnectAttempts st' = maxReconnectAttempts (config st)
     /\ reconnectTimer st' = None
     /\ (forall h, timers st' !! h <> Some (Some ReconnectFn))
     /\ timeouts (trace st') = timeouts (trace st)
     /\ exists new, created (trace st') = created (trace st) ++ new
                    /\ length new <= length (filter (fun a => is_connect_call a = true) l)).
Proof.
  split_and!.
  - intros st. cbv zeta. destruct (disconnect_effects st) as (Ha & Hc & _ & _ & _ & Hl & Hx & _).
    split_and!; try done. intros Hw. rewrite Hx, Hw. by rewrite app_nil_r.
  - intros st. cbv zeta. cbn [run].
    destruct (disconnect_effects (step CallDisconnect st)) as (_ & _ & _ & _ & _ & Hl & _).
    destruct (disconnect_effects st) as (_ & _ & _ & _ & _ & Hl0 & _ & _ & _ & He).
    rewrite Hl, Hl0, He. by rewrite <- app_assoc.
  - intros st l T Hl. cbv zeta.
    pose proof (disconnect_suppresses st T) as S.
    destruct (suppressed_run l _ S Hl) as ((Ha & Ht & Hp) & Hto & new & Hcr & Hlen).
    destruct (disconnect_effects st) as (_ & _ & _ & _ & _ & _ & _ & Hto0 & Hcr0 & _).
    split_and!; try done.
    + by rewrite Ha, config_run, config_step.
    + by rewrite Hto, Hto0.
    + exists new. by rewrite Hcr, Hcr0.
Qed.

(** A client with a reconnect timer pending: [disconnect()] clears it;
    then the caller connects again and that socket fails. *)
Lemma C10_witness :
  let st := run (H := plain_host) run_retry_pending (fresh cfg_default) in
  timers st = [Some ReconnectFn]
  /\ tidy st
  /\ forallb (fun a => negb (is_open_event a)) run_after_disconnect = true
  /\ (let st' := run (H := plain_host) run_after_disconnect
                    (step (H := plain_host) CallDisconnect st) in
      reconnectAttempts st' = maxReconnectAttempts (config st)
      /\ reconnectTimer st' = None
      /\ (forall h, timers st' !! h <> Some (Some ReconnectFn))
      /\ timeouts (trace st') = timeouts (trace st)
      /\ exists new, created (trace st') = created (trace st) ++ new
                     /\ length new
                        <= length (filter (fun a => is_connect_call a = true)
                                          run_after_disconnect)).
Proof.
  cbv zeta.
  assert (tidy (run (H := plain_host) run_retry_pending (fresh cfg_default))) as T.
  { intros h fn E. destruct h as [|h]; vm_compute in E.
    - injection E as <-. reflexivity.
    - destruct h; discriminate E. }
  split; [reflexivity|]. split; [exact T|]. split; [reflexivity|].
  exact (proj2 (proj2 (C10_disconnect_without_connection (H := plain_host)))
           (run (H := plain_host) run_retry_pending (fresh cfg_default))
           run_after_disconnect T eq_refl).
Defined.

(** ** The runs that the code gets wrong *)

(** C1.  With [maxReconnectAttempts = 2]: after two abnormal closures
    the listener of [reconnecting] has heard attempts 1 and 2, but the
    listener of [reconnect_failed] has heard nothing and a reconnect timer
    is pending; after the third closure it still has heard nothing, and no
    further timer is set.  The guard of [_handleClose] (line 198) keeps
    [_scheduleReconnect] from reaching its [reconnect_failed] branch. *)
Theorem C1_reconnect_failed_not_emitted_on_close :
  let after_two := run (H := plain_host) (take 6 run_three_closures) (fresh cfg_two_attempts) in
  let after_three := run (H := plain_host) run_three_closures (fresh cfg_two_attempts) in
  valid (H := plain_host) run_three_closures (fresh cfg_two_attempts) = true
  /\ calls_of 1 (trace after_two)
     = [VObj [("attempt", VInt 1); ("delay", VInt 100)];
        VObj [("attempt", VInt 2); ("delay", VInt 100)]]
  /\ calls_of 2 (trace after_two) = []
  /\ reconnectTimer after_two = Some 1
  /\ calls_of 2 (trace after_three) = []
  /\ timeouts (trace after_three) = [(0, 100%Z); (1, 100%Z)]
  /\ reconnectTimer after_three = None.
Proof. vm_compute. repeat split. Qed.

(** C2.  Two calls are made while the client's socket is not open, and
    both frames are queued, the [data] frame first.  The socket that then
    opens is one the client has forgotten ([this.ws] is null): its open
    handler takes the first frame off the queue and fails on
    [this.ws.send] with a [TypeError].  Nothing is written to the open
    socket, the first frame is lost and the subscribe frame stays queued. *)
Theorem C2_queued_frames_lost_on_open :
  let before := run (H := plain_host) (take 6 run_queue_lost) (fresh cfg_default) in
  let after := run (H := plain_host) run_queue_lost (fresh cfg_default) in
  valid (H := plain_host) run_queue_lost (fresh cfg_default) = true
  /\ ws_is_open before = false
  /\ messageQueue before
     = [dq "{'type':'data','data':1}";
        dq "{'type':'subscribe','topic':'sensor_data','filter':'site_a','interval':5000}"]
  /\ sockets before !! 1 = Some CONNECTING
  /\ sockets after !! 1 = Some OPEN
  /\ sent (trace after) = []
  /\ messageQueue after
     = [dq "{'type':'subscribe','topic':'sensor_data','filter':'site_a','interval':5000}"]
  /\ uncaught (trace after) = [TypeError].
Proof. vm_compute. repeat split. Qed.

(** C3.  After the second [disconnect()] of this run the counter is at
    the ceiling and nothing is pending, and the caller does not call
    [connect()] again; yet socket 1, which the client forgot, opens and
    resets the counter, and when it closes a reconnect timer is set and
    creates socket 2. *)
Theorem C3_reconnect_after_disconnect :
  let at_disconnect := run (H := plain_host) (take 5 run_reconnect_after_disconnect)
                           (fresh cfg_default) in
  let final := run (H := plain_host) run_reconnect_after_disconnect (fresh cfg_default) in
  valid (H := plain_host) run_reconnect_after_disconnect (fresh cfg_default) = true
  /\ reconnectAttempts at_disconnect = 5%Z
  /\ reconnectTimer at_disconnect = None
  /\ ws at_disconnect = None
  /\ sockets at_disconnect = [CLOSED; CONNECTING]
  /\ forallb (fun a => negb (is_connect_call a)) (drop 5 run_reconnect_after_disconnect) = true
  /\ timeouts (trace final) = [(1, 5000%Z)]
  /\ created (trace final) = [0; 1; 2]
  /\ ws final = Some 2.
Proof. vm_compute. repeat split. Qed.

(** C6.  Two reachable states in which heartbeat and connection disagree.
    In the first the open handler set [connected] and then failed on
    [this.ws.send] with [this.ws] null: socket 1 is open, the client says
    connected, there is no heartbeat timer, and the queued frame is gone.
    In the second a heartbeat timer runs (started by the open event of the
    forgotten socket 1) while the client's socket 2 is still connecting. *)
Theorem C6_heartbeat_and_connection_disagree :
  let first := run (H := plain_host) run_open_without_heartbeat (fresh cfg_default) in
  let second := run (H := plain_host) run_heartbeat_while_connecting (fresh cfg_default) in
  valid (H := plain_host) run_open_without_heartbeat (fresh cfg_default) = true
  /\ connected first = true
  /\ sockets first !! 1 = Some OPEN
  /\ heartbeatTimer first = None
  /\ uncaught (trace first) = [TypeError]
  /\ sent (trace first) = [] /\ messageQueue first = []
  /\ valid (H := plain_host) run_heartbeat_while_connecting (fresh cfg_default) = true
  /\ heartbeatTimer second = Some 0
  /\ timers second = [Some HeartbeatFn]
  /\ ws second = Some 2
  /\ sockets second !! 2 = Some CONNECTING
  /\ ws_is_open second = false.
Proof. vm_compute. repeat split. Qed.

(** ** The send path *)

Section SendPath.
Context `{Host}.

(** A call that puts a message on the wire writes its frame at once
    when the client's socket is open, and otherwise puts it at the end of
    the queue; it touches nothing else. *)
Lemma out_call_step c st :
  let st' := step (call_action c) st in
  (if ws_is_open st
   then sent (trace st') = sent (trace st) ++ [call_frame c]
        /\ messageQueue st' = messageQueue st
   else sent (trace st') = sent (trace st)
        /\ messageQueue st' = messageQueue st ++ [call_frame c])
  /\ ws st' = ws st /\ sockets st' = sockets st
  /\ uncaught (trace st') = uncaught (trace st).
Proof.
  destruct c; simpl; run_method; tests; fin.
  all: unfold readyState_of in *; split_and!; try done; read_trace; fin.
Qed.

Lemma out_calls_run calls st :
  ws_is_open st = false ->
  let st1 := run (map call_action calls) st in
  messageQueue st1 = messageQueue st ++ map call_frame calls
  /\ sent (trace st1) = sent (trace st)
  /\ ws st1 = ws st /\ sockets st1 = sockets st
  /\ uncaught (trace st1) = uncaught (trace st).
Proof.
  revert st. induction calls as [|c calls IH]; intros st Ho; simpl.
  - by rewrite app_nil_r.
  - destruct (out_call_step c st) as (Hq & Hw & Hs & Hu). rewrite Ho in Hq.
    destruct Hq as [Hsent Hq].
    assert (ws_is_open (step (call_action c) st) = false) as Ho'.
    { unfold ws_is_open, readyState_of in *. by rewrite Hw, Hs. }
    destruct (IH _ Ho') as (Hq' & Hsent' & Hw' & Hs' & Hu').
    rewrite Hq', Hsent', Hw', Hs', Hu', Hq, Hsent, Hw, Hs, Hu.
    by rewrite <- app_assoc.
Qed.

(** The open event of the client's own socket writes the queue to it, in
    order and before anything else, and empties it. *)
Lemma open_replays_queue st s :
  ws st = Some s -> sockets st !! s = Some CONNECTING ->
  let st2 := step (OnOpen s) st in
  sent (trace st2) = sent (trace st) ++ messageQueue st
  /\ sent_on s (trace st2) = sent_on s (trace st) ++ messageQueue st
  /\ messageQueue st2 = []
  /\ uncaught (trace st2) = uncaught (trace st)
  /\ connected st2 = true
  /\ reconnectAttempts st2 = 0%Z
  /\ heartbeatTimer st2 = Some (length (timers st))
  /\ ws st2 = Some s
  /\ sockets st2 = <[s:=OPEN]> (sockets st)
  /\ reconnectTimer st2 = reconnectTimer st.
Proof.
  intros Hw Hs. cbv zeta.
  unfold step, exec, _handleOpen. unfold_monad. rewrite _log_eq. simpl.
  erewrite (drain_open (messageQueue st) _ s); simpl; try done.
  2:{ unfold readyState_of. simpl. rewrite list_lookup_insert_eq; [done|].
      by apply lookup_lt_Some in Hs. }
  run_method.
  all: split_and!; try done.
  all: try (by rewrite length_insert).
  all: proj_trace; done.
Qed.

End SendPath.

Section Connect.
Context `{Host}.

(** [connect()] on a client without a live socket, at an address the
    host accepts: a new socket, connecting, becomes the client's. *)
Lemma connect_creates st :
  ws st = None -> WebSocket_accepts (url (config st)) = true ->
  let st' := step CallConnect st in
  ws st' = Some (length (sockets st))
  /\ sockets st' = sockets st ++ [CONNECTING]
  /\ messageQueue st' = messageQueue st
  /\ sent (trace st') = sent (trace st)
  /\ created (trace st') = created (trace st) ++ [length (sockets st)]
  /\ timeouts (trace st') = timeouts (trace st)
  /\ reconnectAttempts st' = reconnectAttempts st
  /\ reconnectTimer st' = reconnectTimer st
  /\ heartbeatTimer st' = heartbeatTimer st
  /\ connected st' = connected st
  /\ timers st' = timers st.
Proof.
  intros Hw Ha. run_method; fin.
  split_and!; try done; proj_trace; done.
Qed.

End Connect.

(** ** The queue is replayed in order, onto the client's own socket *)

(** Calls of [send], [subscribe] and [unsubscribe] made while the
    client's socket is not open write nothing and append their frames to
    the queue in the order of the calls.  When the socket that opens is
    the one the client holds in [this.ws], its open event writes the queue
    to that socket in that order, before anything else, and leaves it
    empty.  So [subscribe("sensor_data", "site_a", 5000)] before
    [connect()] on a fresh client makes the literal subscribe frame the
    first one written after the socket opens. *)
Theorem queue_replayed_onto_own_socket `{Host} :
  (forall st calls,
     ws_is_open st = false ->
     let st1 := run (map call_action calls) st in
     messageQueue st1 = messageQueue st ++ map call_frame calls
     /\ sent (trace st1) = sent (trace st))
  /\ (forall st s,
     ws st = Some s -> sockets st !! s = Some CONNECTING ->
     let st2 := step (OnOpen s) st in
     sent (trace st2) = sent (trace st) ++ messageQueue st
     /\ sent_on s (trace st2) = sent_on s (trace st) ++ messageQueue st
     /\ messageQueue st2 = [])
  /\ (forall cfg,
     WebSocket_accepts (url cfg) = true ->
     let l := [CallSubscribe "sensor_data" (Some "site_a") (Some 5000%Z);
               CallConnect; OnOpen 0] in
     valid l (fresh cfg) = true
     /\ sent (trace (run l (fresh cfg)))
        = [dq "{'type':'subscribe','topic':'sensor_data','filter':'site_a','interval':5000}"]).
Proof.
  split_and!.
  - intros st calls Ho. cbv zeta.
    destruct (out_calls_run calls st Ho) as (Hq & Hs & _). by rewrite Hq, Hs.
  - intros st s Hw Hs. cbv zeta.
    destruct (open_replays_queue st s Hw Hs) as (H1 & H2 & H3 & _). done.
  - intros cfg Ha. cbv zeta.
    pose proof (out_calls_run [OutSubscribe "sensor_data" (Some "site_a") 5000]
                  (fresh cfg) eq_refl) as (Hq & Hs & Hw & Hk & _).
    cbn [map call_action run] in Hq, Hs, Hw, Hk.
    set (st1 := step (CallSubscribe "sensor_data" (Some "site_a") (Some 5000%Z)) (fresh cfg)) in *.
    assert (config st1 = cfg) as Hc by (unfold st1; by rewrite config_step).
    destruct (connect_creates st1) as (Hw2 & Hk2 & Hq2 & Hs2 & _).
    { by rewrite Hw. } { by rewrite Hc. }
    set (st2 := step CallConnect st1) in *.
    rewrite Hk in Hw2, Hk2. simpl in Hw2, Hk2.
    destruct (open_replays_queue st2 0 Hw2) as (Hs3 & _).
    { by rewrite Hk2. }
    split.
    + cbn [valid]. fold st1. fold st2. simpl. rewrite Hk2. simpl. done.
    + cbn [run]. fold st1. fold st2. rewrite Hs3, Hs2, Hq2, Hs, Hq. reflexivity.
Qed.

(** Two calls on a fresh client. *)
Lemma queue_replayed_onto_own_socket_witness :
  ws_is_open (fresh cfg_default) = false
  /\ (let st1 := run (H := plain_host)
                   (map call_action [OutSend (VInt 1); OutUnsubscribe "tasks" None])
                   (fresh cfg_default) in
      messageQueue st1
      = messageQueue (fresh cfg_default)
        ++ map call_frame [OutSend (VInt 1); OutUnsubscribe "tasks" None]
      /\ sent (trace st1) = sent (trace (fresh cfg_default))).
Proof.
  split; [reflexivity|].
  exact (proj1 (queue_replayed_onto_own_socket (H := plain_host))
           (fresh cfg_default) [OutSend (VInt 1); OutUnsubscribe "tasks" None] eq_refl).
Defined.

(** ** C7: the subscription registry *)

(** C7, as stated, fails: after the first [subscribe] for a key the
    registry holds no record at all. *)
Lemma C7_counterexample :
  subscriptions (step (H := plain_host)
                   (CallSubscribe "sensor_data" (Some "site_a") (Some 5000%Z))
                   (fresh cfg_default)) = ∅.
Proof. reflexivity. Qed.

Lemma subscriptions_run `{Host} l st :
  subscriptions st = ∅ -> subscriptions (run l st) = ∅.
Proof.
  revert st. induction l as [|a l IH]; intros st E; [done|].
  simpl. apply IH. destruct (subscriptions_step a st) as [E'|E']; congruence.
Qed.

(** C7, amended.  The registry is empty in every reachable state:
    [subscribe] and [unsubscribe] leave it alone.  What [subscribe] does
    for a key is to write its frame to the open socket or else to queue
    it, and [unsubscribe] does the same with the unsubscribe frame; a
    missing filter is written as [null]. *)
Theorem C7_registry_stays_empty `{Host} cfg st topic filter interval :
  reachable cfg st ->
  let sub := OutSubscribe topic filter interval in
  let unsub := OutUnsubscribe topic filter in
  let st1 := step (call_action sub) st in
  let st2 := step (call_action unsub) st in
  subscriptions st = ∅ /\ subscriptions st1 = ∅ /\ subscriptions st2 = ∅
  /\ (if ws_is_open st
      then sent (trace st1) = sent (trace st) ++ [call_frame sub]
           /\ messageQueue st1 = messageQueue st
      else sent (trace st1) = sent (trace st)
           /\ messageQueue st1 = messageQueue st ++ [call_frame sub])
  /\ (if ws_is_open st
      then sent (trace st2) = sent (trace st) ++ [call_frame unsub]
           /\ messageQueue st2 = messageQueue st
      else sent (trace st2) = sent (trace st)
           /\ messageQueue st2 = messageQueue st ++ [call_frame unsub]).
Proof.
  intros (l & _ & <-). cbv zeta.
  assert (subscriptions (run l (fresh cfg)) = ∅) as E by by apply subscriptions_run.
  split_and!.
  - done.
  - by apply (subscriptions_run [_]).
  - by apply (subscriptions_run [_]).
  - apply (out_call_step (OutSubscribe topic filter interval)).
  - apply (out_call_step (OutUnsubscribe topic filter)).
Qed.

(** A client with a queued message, subscribing to a topic without a
    filter. *)
Lemma C7_witness :
  reachable (H := plain_host) cfg_default
    (run (H := plain_host) [CallSend (VInt 1)] (fresh cfg_default))
  /\ subscriptions
       (step (H := plain_host) (call_action (OutSubscribe "tasks" None 60000))
          (run (H := plain_host) [CallSend (VInt 1)] (fresh cfg_default))) = ∅.
Proof.
  assert (reachable (H := plain_host) cfg_default
            (run (H := plain_host) [CallSend (VInt 1)] (fresh cfg_default))) as R.
  { exists [CallSend (VInt 1)]. split; reflexivity. }
  split; [exact R|].
  exact (proj1 (proj2 (C7_registry_stays_empty (H := plain_host) cfg_default _
                         "tasks" None 60000 R))).
Defined.

(** ** C4: inbound frames *)

Lemma or_null_js_or d fields : or_null (js_or d (VObj fields)) = js_or d (VObj fields).
Proof. unfold js_or. destruct (truthy d) eqn:E; [|done]. by destruct d. Qed.

(** C4, as stated, fails.  The frame [{"type":"alert","data":false}] has
    a [data] field, yet the listener of [alert] receives the whole
    payload; the frame [{"type":"","data":1}] has a [type] field, yet only
    the [message] event is raised; and a text that does not parse is
    dropped without a log line when [debug] is off. *)
Lemma C4_counterexample :
  let st := run (H := frames_host)
              [CallOn "alert" 1; CallOn "message" 2; CallOn "" 3; CallConnect; OnOpen 0]
              (fresh cfg_default) in
  JSON_parse (Host := frames_host) frame_alert_off = Some value_alert_off
  /\ field "data" value_alert_off = VBool false
  /\ called (trace (step (H := frames_host) (OnMessage 0 frame_alert_off) st))
     = [(1, value_alert_off); (2, value_alert_off)]
  /\ JSON_parse (Host := frames_host) frame_no_type = Some value_no_type
  /\ called (trace (step (H := frames_host) (OnMessage 0 frame_no_type) st))
     = [(2, value_no_type)]
  /\ JSON_parse (Host := frames_host) "{oops" = None
  /\ trace (step (H := frames_host) (OnMessage 0 "{oops") st) = trace st.
Proof. vm_compute. repeat split. Qed.

(** C4, amended.  A frame that parses to an object whose [type] is
    truthy raises two events: the one named by [type], with [data] when
    [data] is truthy and the whole payload otherwise, then [message] with
    the whole payload.  When [type] is missing or falsy only [message] is
    raised.  A text that does not parse changes nothing, except for one
    log line when [debug] is on.  In all three cases nothing is thrown
    out of the handler.  So the frame
    [{"type":"sensor_data_update","data":{"temp":28.5}}] brings
    [{"temp":28.5}] to the listeners of [sensor_data_update] and the whole
    object to those of [message]. *)
Theorem C4_inbound_frames `{Host} :
  (forall st s data fields,
     JSON_parse data = Some (VObj fields) ->
     let message := VObj fields in
     let type := assoc "type" fields in
     let st' := step (OnMessage s data) st in
     called (trace st')
     = called (trace st)
       ++ (if truthy type
           then map (fun cb => (cb, js_or (assoc "data" fields) message))
                    (listeners type (eventListeners st))
           else [])
       ++ map (fun cb => (cb, message)) (listeners (VStr "message") (eventListeners st))
     /\ uncaught (trace st') = uncaught (trace st))
  /\ (forall st s data,
     JSON_parse data = None ->
     step (OnMessage s data) st
     = add_trace (log_effects (debug (config st))
                    [VStr "Failed to parse message:"; SyntaxError]) st)
  /\ (forall st s,
     JSON_parse frame_update = Some value_update ->
     called (trace (step (OnMessage s frame_update) st))
     = called (trace st)
       ++ map (fun cb => (cb, VObj [("temp", VNum 285 1)]))
              (listeners (VStr "sensor_data_update") (eventListeners st))
       ++ map (fun cb => (cb, value_update))
              (listeners (VStr "message") (eventListeners st))).
Proof.
  assert (forall st s data fields,
     JSON_parse data = Some (VObj fields) ->
     called (trace (step (OnMessage s data) st))
     = called (trace st)
       ++ (if truthy (assoc "type" fields)
           then map (fun cb => (cb, js_or (assoc "data" fields) (VObj fields)))
                    (listeners (assoc "type" fields) (eventListeners st))
           else [])
       ++ map (fun cb => (cb, VObj fields)) (listeners (VStr "message") (eventListeners st))
     /\ uncaught (trace (step (OnMessage s data) st)) = uncaught (trace st)) as Hobj.
  { intros st s data fields Hp.
    unfold step, exec, _handleMessage, prop. unfold_monad. rewrite Hp. simpl.
    rewrite _log_eq. simpl.
    destruct (truthy (assoc "type" fields)) eqn:Ht; rewrite ?_emit_eq; simpl;
      rewrite ?_emit_eq; simpl; split; proj_trace;
      rewrite ?or_null_js_or, <- ?app_assoc; done. }
  split_and!.
  - intros st s data fields Hp. cbv zeta. by apply Hobj.
  - intros st s data Hp.
    unfold step, exec, _handleMessage. unfold_monad. rewrite Hp. simpl.
    by rewrite _log_eq.
  - intros st s Hp. destruct (Hobj st s _ _ Hp) as [Hc _]. by rewrite Hc.
Qed.

(** A host that parses the frame of the example, and a client with a
    listener for each of its two events. *)
Lemma C4_witness :
  JSON_parse (Host := frames_host) frame_update = Some value_update
  /\ (let st := run (H := frames_host)
                  [CallOn "sensor_data_update" 1; CallOn "message" 2; CallConnect; OnOpen 0]
                  (fresh cfg_default) in
      called (trace (step (H := frames_host) (OnMessage 0 frame_update) st))
      = called (trace st)
        ++ map (fun cb => (cb, VObj [("temp", VNum 285 1)]))
               (listeners (VStr "sensor_data_update") (eventListeners st))
        ++ map (fun cb => (cb, value_update))
               (listeners (VStr "message") (eventListeners st))).
Proof.
  split; [reflexivity|].
  exact (proj2 (proj2 (C4_inbound_frames (H := frames_host))) _ 0 eq_refl).
Defined.

(** ** C5: an open event gives all the attempts back *)

Section Retries.
Context `{Host}.







End Retries.



(** ** Orderly runs *)

Section Orderly.
Context `{Host}.

Lemma ws_is_open_true st :
  ws_is_open st = true <-> exists s, ws st = Some s /\ sockets st !! s = Some OPEN.
Proof.
  unfold ws_is_open, readyState_of. split.
  - destruct (ws st) as [s|]; [|done]. intros E%bool_decide_eq_true_1.
    exists s. split; [done|]. by destruct (sockets st !! s) as [[]|].
  - intros (s & -> & ->). by apply bool_decide_eq_true_2.
Qed.

Lemma in_step_settled st : in_step st <-> settled (core st).
Proof. unfold in_step, settled, core. by rewrite ws_is_open_true. Qed.

Lemma settled_fresh cfg : settled (core (fresh cfg)).
Proof.
  unfold settled, core. simpl. split_and!.
  - split; [by intros [? ?]|done].
  - intros s E. by rewrite lookup_nil in E.
  - by intros (? & ? & ?).
Qed.

(** The actions that leave socket, flag and heartbeat alone. *)
Lemma core_quiet a st :
  match a with
  | CallSubscribe _ _ _ | CallUnsubscribe _ _ | CallOn _ _ | CallOff _ _
  | CallSend _ | OnError _ _ | OnMessage _ _ => core (step a st) = core st
  | _ => True
  end.
Proof.
  unfold core. destruct a; try done; run_method; unfold readyState_of in *; simpl in *; fin.
Qed.

Lemma core_heartbeat st h :
  mjoin (timers st !! h) = Some HeartbeatFn -> core (step (TimerFires h) st) = core st.
Proof.
  intros E. unfold core, step, exec. unfold_monad. rewrite E.
  run_method; unfold readyState_of in *; simpl in *; fin.
Qed.

(** [connect()], also when called by the reconnect timer. *)
Lemma core_connect st :
  core (step CallConnect st)
  = match ws st with
    | Some s =>
        if bool_decide (readyState_of s st = CONNECTING)
           || bool_decide (readyState_of s st = OPEN)
        then core st
        else if WebSocket_accepts (url (config st))
             then (Some (length (sockets st)), connected st, heartbeatTimer st,
                   sockets st ++ [CONNECTING])
             else core st
    | None =>
        if WebSocket_accepts (url (config st))
        then (Some (length (sockets st)), connected st, heartbeatTimer st,
              sockets st ++ [CONNECTING])
        else core st
    end.
Proof. unfold core. run_method; unfold readyState_of in *; simpl in *; fin. Qed.

Lemma core_reconnect st h :
  mjoin (timers st !! h) = Some ReconnectFn ->
  core (step (TimerFires h) st) = core (step CallConnect st).
Proof.
  intros E. unfold core, step, exec. unfold_monad. rewrite E.
  run_method; unfold readyState_of in *; simpl in *; fin.
Qed.

Lemma core_disconnect st :
  core (step CallDisconnect st)
  = (None, false, None,
     match ws st with
     | Some s => match readyState_of s st with
                 | CONNECTING | OPEN => <[s:=CLOSING]> (sockets st)
                 | _ => sockets st
                 end
     | None => sockets st
     end).
Proof. unfold core. run_method; unfold readyState_of in *; simpl in *; fin. Qed.

Lemma core_cleanup st : core (step CallCleanup st) = core (step CallDisconnect st).
Proof. unfold core. run_method; unfold readyState_of in *; simpl in *; fin. Qed.

Lemma core_close st s code reason :
  core (step (OnClose s code reason) st) = (None, false, None, <[s:=CLOSED]> (sockets st)).
Proof. unfold core. run_method; unfold readyState_of in *; simpl in *; fin. Qed.

Lemma core_closing st s :
  core (step (OnClosing s) st)
  = (ws st, connected st, heartbeatTimer st, <[s:=CLOSING]> (sockets st)).
Proof. done. Qed.

Lemma core_open st s :
  ws st = Some s -> sockets st !! s = Some CONNECTING ->
  core (step (OnOpen s) st)
  = (Some s, true, Some (length (timers st)), <[s:=OPEN]> (sockets st)).
Proof.
  intros Hw Hs.
  destruct (open_replays_queue st s Hw Hs) as (_ & _ & _ & _ & Hc & _ & Hh & Hw' & Hs' & _).
  unfold core. by rewrite Hc, Hh, Hw', Hs'.
Qed.

(** A socket that is overwritten with a state other than connecting
    leaves the connecting sockets among the ones that were. *)
Lemma connecting_after_insert (socks : list readyState) s r s' :
  r <> CONNECTING -> <[s:=r]> socks !! s' = Some CONNECTING ->
  socks !! s' = Some CONNECTING /\ s' <> s.
Proof.
  intros Hr E. destruct (decide (s' = s)) as [->|Hne].
  - destruct (decide (s < length socks)).
    + rewrite list_lookup_insert_eq in E by done. congruence.
    + rewrite list_insert_ge in E by lia. rewrite lookup_ge_None_2 in E by lia. done.
  - by rewrite list_lookup_insert_ne in E.
Qed.

Lemma settled_connect st : settled (core st) -> settled (core (step CallConnect st)).
Proof.
  intros S. rewrite core_connect. unfold core in *.
  destruct S as (I1 & I2 & I3).
  assert ((forall s, sockets st !! s <> Some CONNECTING) ->
            settled (Some (length (sockets st)), connected st, heartbeatTimer st,
                     sockets st ++ [CONNECTING])) as Hnew.
  { intros Hfree. unfold settled. split_and!; [done| |].
    - intros s E. apply lookup_app_Some in E as [E|[Hl E]].
      + by destruct (Hfree s).
      + destruct (s - length (sockets st)) as [|k] eqn:Hk; simpl in E; [|by destruct k].
        f_equal. lia.
    - intros (s & [= <-] & E). rewrite lookup_app_r, Nat.sub_diag in E by done.
      discriminate E. }
  destruct (ws st) as [s|] eqn:Hw.
  - unfold readyState_of.
    destruct (sockets st !! s) as [[]|] eqn:Hs; simpl; try by split_and!.
    all: destruct (WebSocket_accepts (url (config st))); [|by split_and!].
    all: apply Hnew; intros s' E; pose proof (I2 s' E); congruence.
  - destruct (WebSocket_accepts (url (config st))); [|by split_and!].
    apply Hnew. intros s' E. pose proof (I2 s' E). congruence.
Qed.

Lemma settled_forgotten st socks :
  (forall s, socks !! s = Some CONNECTING ->
             sockets st !! s = Some CONNECTING /\ ws st <> Some s) ->
  settled (core st) -> settled (None, false, None, socks).
Proof.
  intros Hs (I1 & I2 & I3). unfold settled. split_and!.
  - split; [by intros [? ?]|done].
  - intros s E. destruct (Hs s E) as [E' Hne]. by destruct Hne, (I2 s E').
  - by intros (? & ? & ?).
Qed.

Lemma settled_disconnect st : settled (core st) -> settled (core (step CallDisconnect st)).
Proof.
  intros S. rewrite core_disconnect. apply (settled_forgotten st); [|done].
  pose proof S as (_ & I2 & _). unfold core in I2. intros s' E.
  destruct (ws st) as [s|] eqn:Hw.
  - unfold readyState_of in E. destruct (sockets st !! s) as [[]|] eqn:Hs; simpl in E.
    + apply connecting_after_insert in E as [E Hne]; [|done]. split; [done|by intros [= ->]].
    + apply connecting_after_insert in E as [E Hne]; [|done]. split; [done|by intros [= ->]].
    + split; [done|]. intros [= <-]. congruence.
    + split; [done|]. intros [= <-]. congruence.
    + split; [done|]. intros [= <-]. congruence.
  - split; [done|]. pose proof (I2 s' E). congruence.
Qed.

(** Every action of an orderly run keeps the client in step. *)
Lemma in_step_step a st :
  in_step st -> enabled a st = true -> orderly_action a st = true ->
  in_step (step a st).
Proof.
  rewrite !in_step_settled. intros S En Or.
  destruct a;
    try (match goal with
         | |- settled (core (step ?a _)) =>
             pose proof (core_quiet a st) as Hq; simpl in Hq; by rewrite Hq
         end).
  - by apply settled_connect.
  - by apply settled_disconnect.
  - rewrite core_cleanup. by apply settled_disconnect.
  - simpl in En. apply bool_decide_eq_true_1 in En.
    pose proof S as (_ & I2 & _). unfold core in I2.
    pose proof (I2 s En) as Hw.
    rewrite core_open by done.
    destruct S as (I1 & _ & I3). unfold settled. split_and!.
    + split; [done|by eexists].
    + intros s' E. apply connecting_after_insert in E as [E Hne]; [|done].
      by rewrite <- (I2 s' E).
    + done.
  - rewrite core_close. simpl in Or. apply orb_true_iff in Or.
    apply (settled_forgotten st); [|done].
    intros s' E. apply connecting_after_insert in E as [E Hne]; [|done].
    split; [done|]. destruct Or as [E'|E']; apply bool_decide_eq_true_1 in E'; congruence.
  - rewrite core_closing. destruct S as (I1 & I2 & I3). unfold core in *.
    unfold settled. split_and!; [done| |].
    + intros s' E. apply connecting_after_insert in E as [E Hne]; [|done]. by apply I2.
    + intros (s' & Hw & E). apply I3. exists s'. split; [done|].
      destruct (decide (s' = s)) as [->|Hne].
      * destruct (decide (s < length (sockets st))).
        -- rewrite list_lookup_insert_eq in E by done. discriminate E.
        -- by rewrite list_insert_ge in E by lia.
      * by rewrite list_lookup_insert_ne in E.
  - simpl in En. apply bool_decide_eq_true_1 in En. destruct En as [fn En].
    destruct fn.
    + rewrite core_reconnect by done. by apply settled_connect.
    + by rewrite core_heartbeat.
Qed.

Lemma in_step_run l st :
  in_step st -> valid l st = true -> orderly l st = true -> in_step (run l st).
Proof.
  revert st. induction l as [|a l IH]; intros st I V O; [done|].
  simpl in *. apply andb_true_iff in V as [V1 V2]. apply andb_true_iff in O as [O1 O2].
  apply IH; [by apply in_step_step|done|done].
Qed.




End Orderly.

(** ** C9: what [getStatus] and [isConnected] report *)




(** ** More about close events and [disconnect()] *)

Lemma lookup_cleared (l : list (option timer_fn)) a h :
  a = h \/ mjoin (l !! h) = None -> mjoin (<[a:=None]> l !! h) = None.
Proof.
  intros Hc. destruct (decide (a = h)) as [->|Hne].
  - destruct (decide (h < length l)).
    + by rewrite list_lookup_insert_eq.
    + by rewrite list_insert_ge, lookup_ge_None_2 by lia.
  - rewrite list_lookup_insert_ne by done. by destruct Hc.
Qed.

Section CloseEvents.
Context `{Host}.

(** A close event calls the listeners of [disconnected] and, when it
    schedules a retry, those of [reconnecting]; it calls nobody else.  So
    a listener that is registered for [reconnect_failed] only is never
    called by a close event, in any state and for any close code. *)
Theorem close_event_calls_nobody_else st s code reason cb :
  cb ∉ listeners (VStr "disconnected") (eventListeners st) ->
  cb ∉ listeners (VStr "reconnecting") (eventListeners st) ->
  calls_of cb (trace (step (OnClose s code reason) st)) = calls_of cb (trace st).
Proof.
  intros Hd Hr. run_method; tests; fin; try lia.
  all: autorewrite with traces; simpl;
       rewrite ?calls_of_emit_other by done; by rewrite ?app_nil_r.
Qed.

(** A close event with the normal code 1000, or at the ceiling, sets no
    reconnect timer and leaves the counter alone. *)
Theorem close_without_retry st s code reason :
  code = 1000%Z \/ (maxReconnectAttempts (config st) <= reconnectAttempts st)%Z ->
  let st' := step (OnClose s code reason) st in
  timeouts (trace st') = timeouts (trace st)
  /\ reconnectTimer st' = reconnectTimer st
  /\ reconnectAttempts st' = reconnectAttempts st
  /\ created (trace st') = created (trace st).
Proof.
  intros Hc. run_method; tests; fin; try lia.
  all: try (destruct Hc; [congruence|lia]).
  all: split_and!; try done; proj_trace; done.
Qed.

(** While a reconnect timer is pending a close event does not set a
    second one and does not count an attempt. *)
Theorem close_while_retry_pending st s code reason h :
  reconnectTimer st = Some h ->
  let st' := step (OnClose s code reason) st in
  timeouts (trace st') = timeouts (trace st)
  /\ reconnectTimer st' = Some h
  /\ reconnectAttempts st' = reconnectAttempts st.
Proof.
  intros Ht. run_method; tests; fin.
  all: split_and!; try done; try congruence; proj_trace; done.
Qed.

(** [disconnect()] in any state: the counter goes to the ceiling, both
    timers are cleared in the client and in the host, the socket (when
    there is one) gets [close(1000, "Client disconnect")] and is
    forgotten, the flag is cleared and the listeners of [disconnected] are
    called with [null]; no socket is created and no timer is set. *)
Theorem disconnect_in_any_state st :
  let st' := step CallDisconnect st in
  reconnectAttempts st' = maxReconnectAttempts (config st)
  /\ connected st' = false
  /\ ws st' = None
  /\ reconnectTimer st' = None
  /\ heartbeatTimer st' = None
  /\ (forall h, reconnectTimer st = Some h \/ heartbeatTimer st = Some h ->
                mjoin (timers st' !! h) = None)
  /\ closes (trace st')
     = closes (trace st)
       ++ match ws st with Some s => [(s, 1000%Z, "Client disconnect")] | None => [] end
  /\ called (trace st')
     = called (trace st)
       ++ map (fun cb => (cb, VNull)) (listeners (VStr "disconnected") (eventListeners st))
  /\ timeouts (trace st') = timeouts (trace st)
  /\ created (trace st') = created (trace st).
Proof.
  cbv zeta.
  destruct (disconnect_effects st) as (H1 & H2 & H3 & H4 & H5 & H6 & H7 & H8 & H9 & _).
  split_and!; try done.
  intros h Hh. clear H1 H2 H3 H4 H5 H6 H7 H8 H9.
  run_method; fin.
  all: destruct Hh as [Hh|Hh]; simplify_eq.
  all: repeat (apply lookup_cleared; first [by left | right]).
Qed.

End CloseEvents.

(** ** Listener registration *)

Section Listeners.
Context `{Host}.

Lemma set_delete_not_elem cb l : cb ∉ set_delete cb l.
Proof. unfold set_delete. intros E%list_elem_of_filter. by destruct E. Qed.

Lemma on_listeners st event cb :
  let before := listeners (VStr event) (eventListeners st) in
  listeners (VStr event) (eventListeners (step (CallOn event cb) st))
  = if bool_decide (cb ∈ before) then before else before ++ [cb].
Proof.
  cbv zeta. run_method; fin.
  all: rewrite lookup_alter_eq, ?lookup_insert_eq, ?Heqo; simpl; unfold set_add.
  - by rewrite bool_decide_eq_true_2.
  - by rewrite bool_decide_eq_false_2.
  - done.
Qed.

Lemma off_not_listening st event cb :
  cb ∉ listeners (VStr event) (eventListeners (step (CallOff event cb) st)).
Proof.
  run_method; fin.
  all: rewrite ?lookup_alter_eq, ?Heqo in *; simpl in *; simplify_eq.
  - rewrite lookup_delete_eq. apply not_elem_of_nil.
  - apply set_delete_not_elem.
  - apply not_elem_of_nil.
Qed.

(** [on(event, cb)] puts [cb] behind the listeners already registered
    for [event], unless it is registered already; the listeners of other
    events stay as they are. *)
Theorem on_registers_last st event cb :
  let before := listeners (VStr event) (eventListeners st) in
  let st' := step (CallOn event cb) st in
  listeners (VStr event) (eventListeners st')
  = (if bool_decide (cb ∈ before) then before else before ++ [cb])
  /\ (forall other, other <> event ->
        listeners (VStr other) (eventListeners st')
        = listeners (VStr other) (eventListeners st)).
Proof.
  cbv zeta. run_method; fin.
  all: split;
    [|intros other Hne; rewrite lookup_alter_ne, ?lookup_insert_ne by done; done].
  all: rewrite lookup_alter_eq, ?lookup_insert_eq, ?Heqo; simpl; unfold set_add.
  - by rewrite bool_decide_eq_true_2.
  - by rewrite bool_decide_eq_false_2.
  - done.
Qed.

(** After [off(event, cb)] the listener [cb] is not registered for
    [event], the others are, in the order they had; when none is left the
    event has no entry any more; other events keep their entries. *)
Theorem off_unregisters st event cb :
  let before := listeners (VStr event) (eventListeners st) in
  let st' := step (CallOff event cb) st in
  listeners (VStr event) (eventListeners st') = filter (fun x => x <> cb) before
  /\ (cb ∉ listeners (VStr event) (eventListeners st'))
  /\ eventListeners st' !! event <> Some []
  /\ (forall other, other <> event ->
        eventListeners st' !! other = eventListeners st !! other).
Proof.
  cbv zeta. run_method; fin.
  all: rewrite ?lookup_alter_eq, ?Heqo in *; simpl in *; simplify_eq.
  - rewrite lookup_delete_eq. simpl. split_and!.
    + by rewrite <- Heqo0.
    + apply not_elem_of_nil.
    + done.
    + intros other Hne. by rewrite lookup_delete_ne, lookup_alter_ne.
  - split_and!.
    + done.
    + apply set_delete_not_elem.
    + intros [= E]. congruence.
    + intros other Hne. by rewrite lookup_alter_ne.
  - split_and!; try done. apply not_elem_of_nil.
Qed.

(** So after [off(event, cb)] an emission of [event] does not call [cb],
    whatever was registered before and however often. *)
Theorem off_then_emit st event cb data :
  calls_of cb (trace (_emit (VStr event) data (step (CallOff event cb) st)).2)
  = calls_of cb (trace st).
Proof.
  pose proof (off_not_listening st event cb) as Hn.
  rewrite _emit_eq. unfold add_trace. cbn [snd trace].
  rewrite calls_of_app, calls_of_emit_other by done.
  rewrite app_nil_r. run_method; fin.
Qed.

(** Two different listeners registered one after the other for an event
    that had none are both called by an emission, in that order. *)
Theorem two_listeners_in_order st event cb1 cb2 data :
  listeners (VStr event) (eventListeners st) = [] -> cb1 <> cb2 ->
  let st' := run [CallOn event cb1; CallOn event cb2] st in
  called (trace (_emit (VStr event) data st').2)
  = called (trace st) ++ [(cb1, or_null data); (cb2, or_null data)].
Proof.
  intros Hl Hne. cbv zeta. cbn [run].
  pose proof (on_listeners st event cb1) as H1.
  pose proof (on_listeners (step (CallOn event cb1) st) event cb2) as H2.
  cbv zeta in H1, H2. rewrite Hl in H1.
  rewrite bool_decide_eq_false_2 in H1 by apply not_elem_of_nil.
  rewrite H1 in H2.
  rewrite bool_decide_eq_false_2 in H2
    by (intros E; apply list_elem_of_singleton in E; congruence).
  rewrite _emit_eq. unfold add_trace. cbn [snd trace].
  rewrite called_app, called_emit_effects, H2. simpl. f_equal.
  run_method; fin; by proj_trace.
Qed.

End Listeners.

(** ** Configuration and the singleton *)

Section Construction.
Context `{Host}.

Lemma connect_returns st : connect st = (Normal tt, step CallConnect st).
Proof.
  unfold step, exec. destruct (connect st) as [o st'] eqn:E. simpl. f_equal.
  assert ((connect st).1 = Normal tt) as Hn by (run_method; fin).
  rewrite E in Hn. exact Hn.
Qed.

(** A key of the caller's [config] always replaces the default, also
    when its value is falsy ([0], [""], [false]): the spread comes after
    the [||] defaults.  A missing key gets 5000, 5, 30000, [false], and
    for the address the environment's [REACT_APP_WS_URL] or else
    [ws://localhost:] with the environment's [WEBSOCKET_PORT] or 8080. *)
Theorem options_replace_defaults c :
  let cfg := resolve_config c in
  url cfg
  = default (or_string (env_string REACT_APP_WS_URL)
               ("ws://localhost:" +:+ or_string (env_string WEBSOCKET_PORT) "8080"))
            (opt_url c)
  /\ reconnectDelay cfg = default 5000%Z (opt_reconnectDelay c)
  /\ maxReconnectAttempts cfg = default 5%Z (opt_maxReconnectAttempts c)
  /\ heartbeatInterval cfg = default 30000%Z (opt_heartbeatInterval c)
  /\ debug cfg = default false (opt_debug c).
Proof.
  destruct c as [[u|] [d|] [m|] [h|] [[]|]]; simpl; unfold spread; simpl; done.
Qed.

(** [getWebSocketClient()] without a configuration, or with [null], on a
    module that has no client yet: the constructor receives [null], fails
    on [config.url] with a [TypeError], and no client is stored, so the
    next call fails in the same way.  With a configuration object the
    client is built, stored and connected at once, without an exception
    also when the host refuses the address.  Once a client is stored it is
    returned as it is, whatever configuration is passed. *)
Theorem singleton_accessor :
  getWebSocketClient NoArg None = (Thrown TypeError, None)
  /\ getWebSocketClient NullArg None = (Thrown TypeError, None)
  /\ (forall c,
        getWebSocketClient (ConfigArg c) None
        = (Normal tt, Some (step CallConnect (fresh (resolve_config c)))))
  /\ (forall c,
        WebSocket_accepts (url (resolve_config c)) = true ->
        let st := step CallConnect (fresh (resolve_config c)) in
        ws st = Some 0 /\ sockets st = [CONNECTING]
        /\ created (trace st) = [0])
  /\ (forall arg st, getWebSocketClient arg (Some st) = (Normal tt, Some st)).
Proof.
  split_and!; try done.
  - intros c. unfold getWebSocketClient, WebSocketClient_new.
    by rewrite connect_returns.
  - intros c. generalize (resolve_config c). intros cfg Ha. cbv zeta.
    run_method; simpl in *; fin. split_and!; try done. by proj_trace.
Qed.

End Construction.

(** ** Heartbeat, connect and cleanup *)

Section Housekeeping.
Context `{Host}.

(** A heartbeat tick writes exactly one ping frame to the client's
    socket when that socket is open, and otherwise does nothing at all:
    nothing is written and nothing is queued. *)
Theorem heartbeat_tick_pings_when_open st h :
  timers st !! h = Some (Some HeartbeatFn) ->
  let st' := step (TimerFires h) st in
  if ws_is_open st
  then sent (trace st') = sent (trace st) ++ [dq "{'type':'ping'}"]
       /\ messageQueue st' = messageQueue st
       /\ timers st' = timers st
  else st' = st.
Proof.
  intros Hh. cbv zeta. unfold step, exec. unfold_monad. rewrite Hh. simpl.
  destruct (ws_is_open st) eqn:Ho.
  - run_method; rewrite ?Ho in *; simpl in *; fin.
    split_and!; try done. proj_trace. reflexivity.
  - run_method; rewrite ?Ho in *; simpl in *; fin.
Qed.

(** [connect()] while the client's socket is connecting or open creates
    nothing and changes nothing; at most it prints a line. *)
Theorem connect_twice_is_once st s :
  ws st = Some s ->
  sockets st !! s = Some CONNECTING \/ sockets st !! s = Some OPEN ->
  step CallConnect st
  = add_trace (log_effects (debug (config st)) [VStr "Already connected or connecting"]) st.
Proof.
  intros Hw Hs. run_method; unfold readyState_of in *; tests; fin.
  all: exfalso; simplify_eq; destruct Hs as [Hs|Hs]; rewrite Hs in *; simpl in *; congruence.
Qed.

(** [cleanup()] is [disconnect()] followed by forgetting every listener,
    every subscription record and every queued frame; the listeners of
    [disconnected] are still told, and afterwards no event reaches any
    listener. *)
Theorem cleanup_forgets_everything st :
  let st' := step CallCleanup st in
  eventListeners st' = ∅ /\ subscriptions st' = ∅ /\ messageQueue st' = []
  /\ ws st' = None /\ connected st' = false
  /\ reconnectTimer st' = None /\ heartbeatTimer st' = None
  /\ reconnectAttempts st' = maxReconnectAttempts (config st)
  /\ called (trace st')
     = called (trace st)
       ++ map (fun cb => (cb, VNull)) (listeners (VStr "disconnected") (eventListeners st))
  /\ (forall event data, called (trace (_emit event data st').2) = called (trace st')).
Proof.
  cbv zeta.
  assert (forall event data st1, eventListeners st1 = ∅ ->
            called (trace (_emit event data st1).2) = called (trace st1)) as He.
  { intros event data st1 E. rewrite _emit_eq. unfold add_trace. cbn [snd trace].
    rewrite called_app, called_emit_effects, E. unfold listeners.
    destruct event; simpl; rewrite ?lookup_empty, ?app_nil_r; done. }
  assert (eventListeners (step CallCleanup st) = ∅) as E by (run_method; fin).
  split_and!; try done; try (run_method; fin; by proj_trace).
  intros event data. by apply He.
Qed.

(** An error event changes nothing in the client: it prints a line when
    [debug] is on and calls the listeners of [error] with the error. *)
Theorem error_event_only_reports st s error :
  step (OnError s error) st
  = add_trace (log_effects (debug (config st)) [VStr "WebSocket error:"; error]
               ++ emit_effects (debug (config st)) (eventListeners st) (VStr "error") error)
      st.
Proof. run_method. by rewrite add_trace_app. Qed.

(** Calls made while the client's socket is open are written at once, in
    the order of the calls, and leave the queue alone. *)
Theorem open_socket_sends_at_once calls : forall st,
  ws_is_open st = true ->
  let st' := run (map call_action calls) st in
  sent (trace st') = sent (trace st) ++ map call_frame calls
  /\ messageQueue st' = messageQueue st.
Proof.
  induction calls as [|c calls IH]; intros st Ho; cbv zeta.
  - simpl. by rewrite app_nil_r.
  - destruct (out_call_step c st) as (Hq & Hw & Hs & _). rewrite Ho in Hq.
    destruct Hq as [Hsent Hq].
    assert (ws_is_open (step (call_action c) st) = true) as Ho'.
    { unfold ws_is_open, readyState_of in *. by rewrite Hw, Hs. }
    destruct (IH _ Ho') as (Hsent' & Hq').
    cbn [map run]. rewrite Hsent', Hq', Hsent, Hq. by rewrite <- app_assoc.
Qed.

(** The open event of a socket while the client holds none and a frame
    is queued: the flag is set and the counter reset, then the first frame
    is taken off the queue and lost, a [TypeError] leaves the handler, no
    heartbeat is started and the listeners of [connected] are not called. *)
Theorem open_event_without_socket st s m q :
  ws st = None -> messageQueue st = m :: q ->
  let st' := step (OnOpen s) st in
  connected st' = true
  /\ reconnectAttempts st' = 0%Z
  /\ messageQueue st' = q
  /\ sent (trace st') = sent (trace st)
  /\ uncaught (trace st') = uncaught (trace st) ++ [TypeError]
  /\ heartbeatTimer st' = heartbeatTimer st
  /\ timers st' = timers st
  /\ called (trace st') = called (trace st).
Proof.
  intros Hw Hq. cbv zeta. unfold step, exec, _handleOpen. unfold_monad.
  rewrite _log_eq. simpl. rewrite Hq. simpl. unfold_monad. unfold this_ws_send.
  unfold_monad. simpl. rewrite Hw. simpl.
  split_and!; try done; by proj_trace.
Qed.

End Housekeeping.

(** ** Frames that are not objects *)

(** A frame whose text parses to [null] is dropped like one that does
    not parse: reading [message.type] fails inside the [try].  A frame
    that parses to a number, a string, a boolean or an array reaches the
    listeners of [message] only, as it is. *)
Theorem frames_that_are_not_objects `{Host} st s data v :
  JSON_parse data = Some v ->
  let st' := step (OnMessage s data) st in
  match v with
  | VObj _ => True
  | VNull | VUndefined =>
      st' = add_trace (log_effects (debug (config st))
                         [VStr "Failed to parse message:"; TypeError]) st
  | _ =>
      called (trace st')
      = called (trace st)
        ++ map (fun cb => (cb, v)) (listeners (VStr "message") (eventListeners st))
      /\ uncaught (trace st') = uncaught (trace st)
  end.
Proof.
  intros Hp. cbv zeta. unfold step, exec, _handleMessage, prop. unfold_monad.
  rewrite Hp. destruct v; simpl; try done; rewrite ?_log_eq; simpl; try done.
  all: rewrite _emit_eq; simpl; split; by proj_trace.
Qed.

(** ** When the host refuses the address *)

Section Refused.
Context `{Host}.

Lemma refused_below st :
  ws st = None -> reconnectTimer st = None ->
  WebSocket_accepts (url (config st)) = false ->
  (reconnectAttempts st < maxReconnectAttempts (config st))%Z ->
  let st' := step CallConnect st in
  let a := (reconnectAttempts st + 1)%Z in
  ws st' = None
  /\ reconnectTimer st' = Some (length (timers st))
  /\ timers st' = timers st ++ [Some ReconnectFn]
  /\ reconnectAttempts st' = a
  /\ config st' = config st
  /\ eventListeners st' = eventListeners st
  /\ created (trace st') = created (trace st)
  /\ timeouts (trace st')
     = timeouts (trace st) ++ [(length (timers st), reconnectDelay (config st))]
  /\ called (trace st')
     = called (trace st) ++ heard st "error" SyntaxError
       ++ heard st "reconnecting"
            (VObj [("attempt", VInt a); ("delay", VInt (reconnectDelay (config st)))]).
Proof.
  intros Hw Ht Ha Hlt. unfold heard. run_method; tests; fin; try lia.
  split_and!; try done; proj_trace; rewrite <- ?app_assoc; done.
Qed.

Lemma refused_at_ceiling st :
  ws st = None -> reconnectTimer st = None ->
  WebSocket_accepts (url (config st)) = false ->
  (maxReconnectAttempts (config st) <= reconnectAttempts st)%Z ->
  let st' := step CallConnect st in
  ws st' = None
  /\ reconnectTimer st' = None
  /\ timers st' = timers st
  /\ reconnectAttempts st' = reconnectAttempts st
  /\ created (trace st') = created (trace st)
  /\ timeouts (trace st') = timeouts (trace st)
  /\ called (trace st')
     = called (trace st) ++ heard st "error" SyntaxError
       ++ heard st "reconnect_failed" VNull.
Proof.
  intros Hw Ht Ha Hlt. unfold heard. run_method; tests; fin; try lia.
  split_and!; try done; proj_trace; rewrite <- ?app_assoc; done.
Qed.

(** The reconnect timer fires: it is spent, forgotten, and [connect()]
    runs. *)
Lemma timer_fires_connect st h :
  timers st !! h = Some (Some ReconnectFn) ->
  step (TimerFires h) st
  = step CallConnect (set_reconnectTimer None (set_timers (<[h:=None]> (timers st)) st)).
Proof.
  intros Hh. unfold step at 1. unfold exec. unfold_monad. rewrite Hh. simpl.
  unfold reconnect_tick. unfold_monad. simpl. by rewrite connect_returns.
Qed.

(** When the host refuses the address and the client has [k] attempts
    left, [connect()] and the [k] timers it leads to end with the counter
    at the ceiling and no timer set: no socket is ever created, [error] is
    emitted [k + 1] times, [reconnecting] [k] times with the attempts
    numbered in order, and [reconnect_failed] once, at the end. *)
Theorem refused_address_gives_up (k : nat) st :
  ws st = None -> reconnectTimer st = None ->
  WebSocket_accepts (url (config st)) = false ->
  (reconnectAttempts st + Z.of_nat k = maxReconnectAttempts (config st))%Z ->
  let st' := run (connect_and_retries st k) st in
  valid (connect_and_retries st k) st = true
  /\ reconnectTimer st' = None
  /\ reconnectAttempts st' = maxReconnectAttempts (config st)
  /\ created (trace st') = created (trace st)
  /\ timeouts (trace st')
     = timeouts (trace st)
       ++ map (fun h => (h, reconnectDelay (config st))) (seq (length (timers st)) k)
  /\ called (trace st')
     = called (trace st)
       ++ concat (map (fun i =>
            heard st "error" SyntaxError
            ++ heard st "reconnecting"
                 (VObj [("attempt", VInt (reconnectAttempts st + Z.of_nat i));
                        ("delay", VInt (reconnectDelay (config st)))]))
            (seq 1 k))
       ++ heard st "error" SyntaxError ++ heard st "reconnect_failed" VNull.
Proof.
  revert st. induction k as [|k IH]; intros st Hw Ht Ha Hk; cbv zeta.
  - destruct (refused_at_ceiling st Hw Ht Ha) as (_ & Hr & _ & Hn & Hc & Ho & Hl); [lia|].
    unfold connect_and_retries. cbn [seq map run valid concat].
    rewrite andb_true_r, Hr, Hn, Hc, Ho, Hl, app_nil_r. cbn [app].
    split_and!; try done. lia.
  - destruct (refused_below st Hw Ht Ha) as (Hw1 & Hr1 & Hm1 & Hn1 & Hg1 & He1 & Hc1 & Ho1 & Hl1);
      [lia|].
    set (st1 := step CallConnect st) in *.
    assert (timers st1 !! length (timers st) = Some (Some ReconnectFn)) as Hh.
    { rewrite Hm1. by rewrite lookup_app_r, Nat.sub_diag by lia. }
    set (st2 := set_reconnectTimer None
                  (set_timers (<[length (timers st):=None]> (timers st1)) st1)).
    assert (length (timers st2) = S (length (timers st))) as Hlen.
    { unfold st2. destruct st1; simpl in *. rewrite length_insert, Hm1, length_app.
      simpl. lia. }
    assert (run (connect_and_retries st (S k)) st = run (connect_and_retries st2 k) st2) as Hrun.
    { unfold connect_and_retries. rewrite Hlen. cbn [seq map run]. fold st1.
      rewrite (timer_fires_connect st1 _ Hh). done. }
    assert (valid (connect_and_retries st (S k)) st = valid (connect_and_retries st2 k) st2)
      as Hval.
    { unfold connect_and_retries. rewrite Hlen. cbn [seq map valid]. fold st1.
      rewrite (timer_fires_connect st1 _ Hh). fold st2.
      replace (enabled CallConnect st) with true by done.
      replace (enabled CallConnect st2) with true by done.
      replace (enabled (TimerFires (length (timers st))) st1) with true; [done|].
      symmetry. cbn [enabled]. rewrite Hh. done. }
    assert (config st2 = config st /\ eventListeners st2 = eventListeners st
            /\ reconnectAttempts st2 = (reconnectAttempts st + 1)%Z
            /\ trace st2 = trace st1 /\ ws st2 = None /\ reconnectTimer st2 = None)
      as (Hg2 & He2 & Hn2 & Ht2 & Hw2 & Hr2).
    { unfold st2. destruct st1; simpl in *. by split_and!. }
    rewrite Hrun, Hval.
    destruct (IH st2) as (V & R & N & C & O & L).
    { done. } { done. } { by rewrite Hg2. } { rewrite Hg2, Hn2. lia. }
    rewrite Hg2, Ht2, Hlen in *. unfold heard in *. rewrite He2, Hn2 in L.
    split_and!; try done.
    + by rewrite C.
    + rewrite O, Ho1. cbn [seq map]. by rewrite <- app_assoc.
    + rewrite L, Hl1. cbn [seq map concat]. unfold heard.
      rewrite <- !app_assoc. change (Z.of_nat 1) with 1%Z. do 3 f_equal.
      rewrite !app_assoc. do 2 f_equal.
      rewrite <- (seq_shift k 1), map_map.
      f_equal. apply map_ext. intros i.
      by replace (reconnectAttempts st + 1 + Z.of_nat i)%Z
        with (reconnectAttempts st + Z.of_nat (S i))%Z by lia.
Qed.

End Refused.

(** ** Defaults and the heartbeat timer *)

Section Defaults.
Context `{Host}.

(** [subscribe(topic)] without a filter and without an interval asks for
    the filter [null] and the interval 30000, and [unsubscribe(topic)] for
    the filter [null]: on a fresh client these are the frames queued. *)
Theorem subscribe_defaults cfg topic :
  step (CallSubscribe topic None None) (fresh cfg)
  = step (CallSubscribe topic None (Some 30000%Z)) (fresh cfg)
  /\ messageQueue (step (CallSubscribe "tasks" None None) (fresh cfg))
     = [dq "{'type':'subscribe','topic':'tasks','filter':null,'interval':30000}"]
  /\ messageQueue (step (CallUnsubscribe "tasks" None) (fresh cfg))
     = [dq "{'type':'unsubscribe','topic':'tasks','filter':null}"].
Proof. split_and!; [done|run_method; fin..]. Qed.

(** The open event of the client's own socket starts a new heartbeat
    timer with the configured interval; a heartbeat timer that was still
    running is cleared in the host first, so that one heartbeat is left. *)
Theorem heartbeat_restarted_on_open st s :
  ws st = Some s -> sockets st !! s = Some CONNECTING ->
  let st' := step (OnOpen s) st in
  heartbeatTimer st' = Some (length (timers st))
  /\ timers st'
     = match heartbeatTimer st with
       | Some h => <[h:=None]> (timers st)
       | None => timers st
       end ++ [Some HeartbeatFn]
  /\ forall h, timers st' !! h = Some (Some HeartbeatFn) ->
       h = length (timers st)
       \/ (timers st !! h = Some (Some HeartbeatFn) /\ heartbeatTimer st <> Some h).
Proof.
  intros Hw Hs. cbv zeta.
  assert (heartbeatTimer (step (OnOpen s) st) = Some (length (timers st))
          /\ timers (step (OnOpen s) st)
             = match heartbeatTimer st with
               | Some h => <[h:=None]> (timers st)
               | None => timers st
               end ++ [Some HeartbeatFn]) as [H1 H2].
  { unfold step, exec, _handleOpen. unfold_monad. rewrite _log_eq. simpl.
    erewrite (drain_open (messageQueue st) _ s); simpl; try done.
    2:{ unfold readyState_of. simpl. rewrite list_lookup_insert_eq; [done|].
        by apply lookup_lt_Some in Hs. }
    run_method. all: split; try done. all: by rewrite ?length_insert. }
  split_and!; [done|done|]. rewrite H2. intros h E.
  apply lookup_new_Some in E as [E|[-> _]].
  - right. destruct (heartbeatTimer st) as [h'|]; [|done].
    apply lookup_clear_Some in E as [E Hne]. split; [done|congruence].
  - left. by destruct (heartbeatTimer st); rewrite ?length_insert.
Qed.

End Defaults.

(** ** Invariants of runs *)

Section Quiet.
Context `{Host}.

(** In a state that is in step no enabled action lets an exception leave
    a handler. *)
Lemma quiet_step a st :
  in_step st -> enabled a st = true ->
  uncaught (trace (step a st)) = uncaught (trace st).
Proof.
  intros (_ & I2 & _) En. destruct a.
  9:{ simpl in En. apply bool_decide_eq_true_1 in En.
      by destruct (open_replays_queue st s (I2 _ En) En) as (_ & _ & _ & Hu & _). }
  all: run_method; tests; fin; by proj_trace.
Qed.

Lemma quiet_run l st :
  in_step st -> valid l st = true -> orderly l st = true ->
  uncaught (trace (run l st)) = uncaught (trace st).
Proof.
  revert st. induction l as [|a l IH]; intros st I V O; [done|].
  simpl in *. apply andb_true_iff in V as [V1 V2]. apply andb_true_iff in O as [O1 O2].
  rewrite IH; [by apply quiet_step|by apply in_step_step|done|done].
Qed.

(** As long as no close event arrives from a socket the client has
    already replaced, the client stays in step: a heartbeat timer exists
    exactly when the [connected] flag is set, a socket that is still
    connecting is the client's own, the flag is set whenever the client's
    socket is open, and no exception ever leaves a handler. *)
Theorem orderly_runs_stay_in_step cfg l :
  valid l (fresh cfg) = true -> orderly l (fresh cfg) = true ->
  let st := run l (fresh cfg) in
  in_step st /\ uncaught (trace st) = [].
Proof.
  intros V O. cbv zeta.
  assert (in_step (fresh cfg)) as I by apply in_step_settled, settled_fresh.
  split; [by apply in_step_run|]. by rewrite quiet_run.
Qed.

End Quiet.

(** ** Witnesses *)

(** A listener of [reconnect_failed] alone, and the first socket closing
    abnormally. *)
Lemma close_event_calls_nobody_else_witness :
  let st := run (H := plain_host) [CallOn "reconnect_failed" 2; CallConnect]
              (fresh cfg_default) in
  calls_of 2 (trace (step (H := plain_host) (OnClose 0 1006 "") st))
  = calls_of 2 (trace st).
Proof.
  apply (close_event_calls_nobody_else (H := plain_host)).
  - vm_compute. intros E. inversion E.
  - vm_compute. intros E. inversion E.
Defined.

(** An open socket that the server closes with code 1000. *)
Lemma close_without_retry_witness :
  let st := run (H := plain_host) [CallConnect; OnOpen 0] (fresh cfg_default) in
  let st' := step (H := plain_host) (OnClose 0 1000 "bye") st in
  timeouts (trace st') = timeouts (trace st)
  /\ reconnectTimer st' = reconnectTimer st
  /\ reconnectAttempts st' = reconnectAttempts st
  /\ created (trace st') = created (trace st).
Proof.
  apply (close_without_retry (H := plain_host)). left. reflexivity.
Defined.

(** The caller connects again while a retry is pending, and that socket
    fails as well. *)
Lemma close_while_retry_pending_witness :
  let st := run (H := plain_host) [CallConnect; OnClose 0 1006 ""; CallConnect]
              (fresh cfg_default) in
  let st' := step (H := plain_host) (OnClose 1 1006 "") st in
  timeouts (trace st') = timeouts (trace st)
  /\ reconnectTimer st' = Some 0
  /\ reconnectAttempts st' = reconnectAttempts st.
Proof.
  apply (close_while_retry_pending (H := plain_host)). reflexivity.
Defined.

Lemma two_listeners_in_order_witness :
  let st' := run (H := plain_host) [CallOn "connected" 1; CallOn "connected" 2]
               (fresh cfg_default) in
  called (trace (_emit (H := plain_host) (VStr "connected") VNull st').2)
  = called (trace (fresh cfg_default)) ++ [(1, or_null VNull); (2, or_null VNull)].
Proof.
  apply (two_listeners_in_order (H := plain_host)); [reflexivity|lia].
Defined.

(** The first timer of an open client is its heartbeat. *)
Lemma heartbeat_tick_pings_when_open_witness :
  let st := run (H := plain_host) [CallConnect; OnOpen 0] (fresh cfg_default) in
  let st' := step (H := plain_host) (TimerFires 0) st in
  if ws_is_open st
  then sent (trace st') = sent (trace st) ++ [dq "{'type':'ping'}"]
       /\ messageQueue st' = messageQueue st
       /\ timers st' = timers st
  else st' = st.
Proof.
  apply (heartbeat_tick_pings_when_open (H := plain_host)). reflexivity.
Defined.

Lemma connect_twice_is_once_witness :
  let st := run (H := plain_host) [CallConnect] (fresh cfg_default) in
  step (H := plain_host) CallConnect st
  = add_trace (log_effects (debug (config st)) [VStr "Already connected or connecting"]) st.
Proof.
  apply (connect_twice_is_once (H := plain_host) _ 0); [reflexivity|].
  left. reflexivity.
Defined.

Lemma open_socket_sends_at_once_witness :
  let st := run (H := plain_host) [CallConnect; OnOpen 0] (fresh cfg_default) in
  let calls := [OutSend (VInt 1); OutUnsubscribe "tasks" None] in
  let st' := run (H := plain_host) (map call_action calls) st in
  sent (trace st') = sent (trace st) ++ map call_frame calls
  /\ messageQueue st' = messageQueue st.
Proof.
  apply (open_socket_sends_at_once (H := plain_host)). reflexivity.
Defined.

(** The state of [run_queue_lost] before its last action: the client has
    forgotten socket 1 and two frames are queued. *)
Lemma open_event_without_socket_witness :
  let st := run (H := plain_host) (take 6 run_queue_lost) (fresh cfg_default) in
  let st' := step (H := plain_host) (OnOpen 1) st in
  connected st' = true
  /\ reconnectAttempts st' = 0%Z
  /\ messageQueue st'
     = [dq "{'type':'subscribe','topic':'sensor_data','filter':'site_a','interval':5000}"]
  /\ sent (trace st') = sent (trace st)
  /\ uncaught (trace st') = uncaught (trace st) ++ [TypeError]
  /\ heartbeatTimer st' = heartbeatTimer st
  /\ timers st' = timers st
  /\ called (trace st') = called (trace st).
Proof.
  apply (open_event_without_socket (H := plain_host) _ 1 (dq "{'type':'data','data':1}"));
    reflexivity.
Defined.

(** A frame that is the number 7. *)
Lemma frames_that_are_not_objects_witness :
  let host := table_host [("7", VInt 7)] false [] in
  let st := run (H := host) [CallOn "message" 1; CallConnect; OnOpen 0] (fresh cfg_default) in
  let st' := step (H := host) (OnMessage 0 "7") st in
  called (trace st') = called (trace st) ++ [(1, VInt 7)]
  /\ uncaught (trace st') = uncaught (trace st).
Proof.
  exact (frames_that_are_not_objects (H := table_host [("7", VInt 7)] false [])
           (run (H := table_host [("7", VInt 7)] false [])
              [CallOn "message" 1; CallConnect; OnOpen 0] (fresh cfg_default))
           0 "7" (VInt 7) eq_refl).
Defined.

(** Two attempts, a listener for each of the three events, and a host
    that refuses the address. *)
Lemma refused_address_gives_up_witness :
  let st := run (H := refusing_host)
              [CallOn "error" 0; CallOn "reconnecting" 1; CallOn "reconnect_failed" 2]
              (fresh cfg_two_attempts) in
  let st' := run (H := refusing_host) [CallConnect; TimerFires 0; TimerFires 1] st in
  valid (H := refusing_host) [CallConnect; TimerFires 0; TimerFires 1] st = true
  /\ reconnectTimer st' = None
  /\ reconnectAttempts st' = 2%Z
  /\ created (trace st') = []
  /\ timeouts (trace st') = [(0, 100%Z); (1, 100%Z)]
  /\ called (trace st')
     = [(0, SyntaxError);
        (1, VObj [("attempt", VInt 1); ("delay", VInt 100)]);
        (0, SyntaxError);
        (1, VObj [("attempt", VInt 2); ("delay", VInt 100)]);
        (0, SyntaxError);
        (2, VNull)].
Proof.
  exact (refused_address_gives_up (H := refusing_host) 2
           (run (H := refusing_host)
              [CallOn "error" 0; CallOn "reconnecting" 1; CallOn "reconnect_failed" 2]
              (fresh cfg_two_attempts))
           eq_refl eq_refl eq_refl eq_refl).
Defined.

Lemma reachable_tidy_witness :
  tidy (run (H := plain_host) run_retry_pending (fresh cfg_default)).
Proof.
  apply (reachable_tidy (H := plain_host) cfg_default).
  exists run_retry_pending. split; reflexivity.
Defined.

(** A client that connects, sends, loses its socket, retries and is
    connected again. *)
Lemma orderly_runs_stay_in_step_witness :
  let l := [CallConnect; OnOpen 0; CallSend (VInt 1); OnClose 0 1006 "";
            TimerFires 1; OnOpen 1] in
  let st := run (H := plain_host) l (fresh cfg_default) in
  in_step st /\ uncaught (trace st) = [].
Proof.
  apply (orderly_runs_stay_in_step (H := plain_host)); reflexivity.
Defined.

(** The heartbeat of [run_heartbeat_while_connecting] is still running
    when the client's third socket opens. *)
Lemma heartbeat_restarted_on_open_witness :
  let st := run (H := plain_host) run_heartbeat_while_connecting (fresh cfg_default) in
  let st' := step (H := plain_host) (OnOpen 2) st in
  heartbeatTimer st = Some 0 /\ timers st = [Some HeartbeatFn]
  /\ heartbeatTimer st' = Some 1 /\ timers st' = [None; Some HeartbeatFn].
Proof.
  split; [reflexivity|]. split; [reflexivity|].
  destruct (heartbeat_restarted_on_open (H := plain_host)
              (run (H := plain_host) run_heartbeat_while_connecting (fresh cfg_default))
              2 eq_refl eq_refl) as (H1 & H2 & _).
  split; [exact H1|exact H2].
Defined.
